(** * The weather page of flask-app/app.py, embedded and verified

    [app.py] serves one route.  It resolves a fixed coordinate to a forecast
    grid cell, fetches the hourly forecast, derives wind chill, heat index,
    a blended real-feel value and a Fahrenheit dewpoint for each of the first
    24 periods, and renders a table and a chart.

    The embedding follows the Python text.  Values are dynamically typed
    ([pyval]), arithmetic is IEEE binary64 (Rocq's primitive floats) with
    Python's int/float promotion, and every operation that can raise returns
    a [result].  What the program takes from outside is a parameter: the
    provider's replies and the clock form the [world] of a request, and the
    C library's [pow], [datetime.fromisoformat], [repr] of floats and
    containers, and [str.isdigit] and [int] on a text, which read the
    Unicode character database, are variables of the section.

    A text is held as its UTF-8 encoding and cut into characters where the
    program looks at characters; whitespace is what [str.isspace] accepts. *)

From Stdlib Require Import ZArith String Ascii Bool Lia.
From Stdlib Require Import PrimFloat FloatOps SpecFloat FloatAxioms.
From stdpp Require Import base option list strings gmap pretty.

Set Warnings "-inexact-float,-register-all".
Set Default Proof Using "Type".

Open Scope Z_scope.

(** ** Exceptions and results *)

Inductive exn :=
  | TypeError
  | ValueError
  | OverflowError
  | ZeroDivisionError
  | KeyError
  | IndexError
  | AttributeError
  | ConnectionError
  | HTTPError
  | JSONDecodeError
  | UnknownTimeZoneError.

Inductive result (A : Type) :=
  | Ok (a : A)
  | Raise (e : exn).
Arguments Ok {A} a.
Arguments Raise {A} e.

#[global] Instance result_ret : MRet result := @Ok.
#[global] Instance result_bind : MBind result := λ A B f r,
  match r with
  | Ok a => f a
  | Raise e => Raise e
  end.

(** ** Python values, as [json] decoding produces them *)

Inductive pyval :=
  | VNone
  | VBool (b : bool)
  | VInt (z : Z)
  | VFloat (f : float)
  | VStr (s : string)
  | VList (l : list pyval)
  | VDict (d : gmap string pyval).

Definition is_none (v : pyval) : bool :=
  match v with
  | VNone => true
  | _ => false
  end.

(** ** Numbers

    An [int] is unbounded, a [float] is binary64, and [bool] is a subclass
    of [int]. *)

Inductive num :=
  | NInt (z : Z)
  | NFloat (f : float).

Definition as_num (v : pyval) : option num :=
  match v with
  | VBool b => Some (NInt (if b then 1 else 0))
  | VInt z => Some (NInt z)
  | VFloat f => Some (NFloat f)
  | _ => None
  end.

Definition of_num (n : num) : pyval :=
  match n with
  | NInt z => VInt z
  | NFloat f => VFloat f
  end.

(** [int] to [float]: round to nearest, ties to even; an int beyond the
    float range raises. *)
Definition float_of_int (z : Z) : result float :=
  let f := SF2Prim (binary_normalize prec emax z 0 false) in
  if is_infinity f then Raise OverflowError else Ok f.

Definition to_float (n : num) : result float :=
  match n with
  | NInt z => float_of_int z
  | NFloat f => Ok f
  end.

(** [a / b] on two ints is the correctly rounded quotient.  The quotient is
    taken with at least 55 significant bits and one sticky bit below them,
    which is enough for the final rounding to 53 bits to be exact. *)
Definition int_true_divide (a b : Z) : result float :=
  if b =? 0 then Raise ZeroDivisionError
  else
    let neg := xorb (a <? 0) (b <? 0) in
    let n := Z.abs a in
    let d := Z.abs b in
    let k := Z.max 0 (56 + Z.log2 d - Z.log2 n) in
    let q := (n * 2 ^ k) / d in
    let sticky := if (n * 2 ^ k) mod d =? 0 then 0 else 1 in
    let m := 2 * q + sticky in
    let f := SF2Prim (binary_normalize prec emax (if neg then - m else m) (- k - 1) neg) in
    if is_infinity f then Raise OverflowError else Ok f.

(** The integer nearest to [m * 2^e], ties to the even one. *)
Definition nearest_even (m : positive) (e : Z) : Z :=
  if 0 <=? e then Z.pos m * 2 ^ e
  else
    let q := Z.pos m / 2 ^ (- e) in
    let r := Z.pos m mod 2 ^ (- e) in
    match 2 * r ?= 2 ^ (- e) with
    | Lt => q
    | Gt => q + 1
    | Eq => if Z.even q then q else q + 1
    end.

(** [round(x)] on a float. *)
Definition round_float (f : float) : result Z :=
  match Prim2SF f with
  | S754_zero _ => Ok 0
  | S754_finite s m e => Ok (if s then - nearest_even m e else nearest_even m e)
  | S754_infinity _ => Raise OverflowError
  | S754_nan => Raise ValueError
  end.

(** [x < z] for a float and an int compares the exact values. *)
Definition float_lt_int (f : float) (z : Z) : bool :=
  match Prim2SF f with
  | S754_zero _ => 0 <? z
  | S754_finite s m e =>
      let v := if s then Z.neg m else Z.pos m in
      if 0 <=? e then v * 2 ^ e <? z else v <? z * 2 ^ (- e)
  | S754_infinity s => s
  | S754_nan => false
  end.

Arguments float_of_int : simpl never.
Arguments int_true_divide : simpl never.
Arguments round_float : simpl never.
Arguments float_lt_int : simpl never.

(** ** Text

    A [str] is held as its UTF-8 encoding.  Where the program looks at
    characters (the whitespace of [split] and [strip], a slice, a loop over
    a text) the encoding is cut into characters: a byte below 128 is a
    character, and so is a byte from 128 on with the continuation bytes
    that follow it.  [replace] works on the bytes: its patterns are ASCII,
    and an ASCII pattern occurs in the encoding exactly where it occurs in
    the text. *)

Definition nl : string := String (ascii_of_nat 10) "".

Definition byte (b : ascii) : Z := Z.of_nat (nat_of_ascii b).

Definition is_continuation (b : ascii) : bool := (128 <=? byte b) && (byte b <? 192).

(** The characters of a text, each as its encoding. *)
Fixpoint chars (s : string) : list string :=
  match s with
  | EmptyString => []
  | String b s' =>
      let rest := chars s' in
      match s' with
      | String b' _ =>
          if (128 <=? byte b) && is_continuation b'
          then match rest with
               | c :: cs => String b c :: cs
               | [] => [String b ""]
               end
          else String b "" :: rest
      | EmptyString => [String b ""]
      end
  end.

(** The text of a list of characters. *)
Fixpoint join (cs : list string) : string :=
  match cs with
  | [] => ""
  | c :: cs' => c +:+ join cs'
  end.

(** The payload of the continuation bytes [s], after [acc]. *)
Fixpoint continuation (acc : Z) (s : string) : Z :=
  match s with
  | EmptyString => acc
  | String b s' => continuation (64 * acc + (byte b - 128)) s'
  end.

(** The code point a character encodes. *)
Definition code_point (c : string) : option Z :=
  match c with
  | EmptyString => None
  | String b rest =>
      let n := byte b in
      match String.length rest with
      | 0%nat => if n <? 128 then Some n else None
      | 1%nat => if (192 <=? n) && (n <? 224) then Some (continuation (n - 192) rest) else None
      | 2%nat => if (224 <=? n) && (n <? 240) then Some (continuation (n - 224) rest) else None
      | 3%nat => if (240 <=? n) && (n <? 248) then Some (continuation (n - 240) rest) else None
      | _ => None
      end
  end.

(** [str.isspace] on a code point: the characters that [str.split] and
    [str.strip] take for whitespace. *)
Definition isspace (n : Z) : bool :=
  (0x09 <=? n) && (n <=? 0x0D) || (0x1C <=? n) && (n <=? 0x20)
  || (n =? 0x85) || (n =? 0xA0) || (n =? 0x1680)
  || (0x2000 <=? n) && (n <=? 0x200A)
  || (n =? 0x2028) || (n =? 0x2029) || (n =? 0x202F) || (n =? 0x205F) || (n =? 0x3000).

Definition is_space (c : string) : bool :=
  match code_point c with
  | Some n => isspace n
  | None => false
  end.

Definition is_empty (s : string) : bool :=
  match s with
  | EmptyString => true
  | String _ _ => false
  end.

Fixpoint lstrip (cs : list string) : list string :=
  match cs with
  | c :: cs' => if is_space c then lstrip cs' else cs
  | [] => []
  end.

Fixpoint rstrip (cs : list string) : list string :=
  match cs with
  | c :: cs' =>
      let r := rstrip cs' in
      if is_space c && bool_decide (r = []) then [] else c :: r
  | [] => []
  end.

(** [s.strip()] *)
Definition strip (s : string) : string := join (rstrip (lstrip (chars s))).

(** [s.lstrip(c)] for a single ASCII character [c]. *)
Fixpoint lstrip_char (c : ascii) (s : string) : string :=
  match s with
  | String c' s' => if Ascii.eqb c c' then lstrip_char c s' else s
  | EmptyString => EmptyString
  end.

(** [s.split()]: the maximal runs of characters that are not whitespace,
    in order; [cur] is the token being read. *)
Fixpoint split_from (cur : string) (cs : list string) : list string :=
  match cs with
  | [] => if is_empty cur then [] else [cur]
  | c :: cs' =>
      if is_space c
      then (if is_empty cur then split_from "" cs' else cur :: split_from "" cs')
      else split_from (cur +:+ c) cs'
  end.

Definition split (s : string) : list string := split_from "" (chars s).

(** [s.replace(old, new)] for a non-empty [old]: matches are replaced from
    the left and do not overlap; [skip] counts the bytes of a match still
    to be dropped. *)
Fixpoint replace_from (old new : string) (skip : nat) (s : string) : string :=
  match s with
  | EmptyString => EmptyString
  | String c s' =>
      match skip with
      | S k => replace_from old new k s'
      | O =>
          if String.prefix old s
          then new +:+ replace_from old new (Nat.pred (String.length old)) s'
          else String c (replace_from old new O s')
      end
  end.

Definition replace (old new s : string) : string := replace_from old new 0 s.

(** ** Constants for the heat index formula (app.py, lines 14 to 22) *)

Definition C1 : float := (-42.379)%float.
Definition C2 : float := 2.04901523%float.
Definition C3 : float := 10.14333127%float.
Definition C4 : float := (-0.22475541)%float.
Definition C5 : float := (-6.83783e-3)%float.
Definition C6 : float := (-5.481717e-2)%float.
Definition C7 : float := 1.22874e-3%float.
Definition C8 : float := 8.5282e-4%float.
Definition C9 : float := (-1.99e-6)%float.

(** [datetime], with the fields the program reads. *)
Record datetime := {
  dt_month : Z;
  dt_day : Z;
  dt_hour : Z
}.

Section Runtime.

(** [float.__pow__]: the C library's [pow], raising where CPython does. *)
Variable float_pow : float → float → result float.

(** [datetime.fromisoformat] on a string. *)
Variable fromisoformat : string → result datetime.

(** [repr] of floats, lists and dicts, as [str.format] prints them. *)
Variable py_repr : pyval → string.

(** [str.isdigit], and [int] on a text: the integer it returns, or [None]
    where it raises [ValueError]. *)
Variable isdigit : string → bool.
Variable py_int : string → option Z.

(** ** Operators

    The operators compute on numbers and raise [TypeError] on anything
    else, as Python does in every expression of the program but one:
    [dewpoint_c * 9] repeats a string or a list, and the [/ 5] that follows
    raises the [TypeError] then. *)

Definition arith (iop : Z → Z → result pyval) (fop : float → float → result pyval)
    (a b : pyval) : result pyval :=
  match as_num a, as_num b with
  | Some (NInt x), Some (NInt y) => iop x y
  | Some x, Some y => fx ← to_float x; fy ← to_float y; fop fx fy
  | _, _ => Raise TypeError
  end.

Definition py_add : pyval → pyval → result pyval :=
  arith (λ x y, Ok (VInt (x + y))) (λ x y, Ok (VFloat (x + y))).

Definition py_sub : pyval → pyval → result pyval :=
  arith (λ x y, Ok (VInt (x - y))) (λ x y, Ok (VFloat (x - y))).

Definition py_mul : pyval → pyval → result pyval :=
  arith (λ x y, Ok (VInt (x * y))) (λ x y, Ok (VFloat (x * y))).

Definition py_truediv : pyval → pyval → result pyval :=
  arith (λ x y, f ← int_true_divide x y; Ok (VFloat f))
        (λ x y, if is_zero y then Raise ZeroDivisionError else Ok (VFloat (x / y))).

Definition py_pow : pyval → pyval → result pyval :=
  arith (λ x y, if 0 <=? y then Ok (VInt (x ^ y))
                else fx ← float_of_int x; fy ← float_of_int y;
                     f ← float_pow fx fy; Ok (VFloat f))
        (λ x y, f ← float_pow x y; Ok (VFloat f)).

(** [a < z] against an int, the only comparison the program makes. *)
Definition py_lt_int (a : pyval) (z : Z) : result bool :=
  match as_num a with
  | Some (NInt x) => Ok (x <? z)
  | Some (NFloat f) => Ok (float_lt_int f z)
  | None => Raise TypeError
  end.

(** [round(v)] with one argument. *)
Definition py_round (v : pyval) : result pyval :=
  match as_num v with
  | Some (NInt z) => Ok (VInt z)
  | Some (NFloat f) => z ← round_float f; Ok (VInt z)
  | None => Raise TypeError
  end.

(** Expressions evaluate their left operand first; the first exception
    wins. *)
Definition lift2 (op : pyval → pyval → result pyval) (a b : result pyval) : result pyval :=
  x ← a; y ← b; op x y.

Definition flt (f : float) : result pyval := Ok (VFloat f).
Definition int (z : Z) : result pyval := Ok (VInt z).
Definition val (v : pyval) : result pyval := Ok v.

Notation "a +! b" := (lift2 py_add a b) (at level 50, left associativity).
Notation "a -! b" := (lift2 py_sub a b) (at level 50, left associativity).
Notation "a *! b" := (lift2 py_mul a b) (at level 40, left associativity).
Notation "a /! b" := (lift2 py_truediv a b) (at level 40, left associativity).
Notation "a **! b" := (lift2 py_pow a b) (at level 30, right associativity).

(** ** The comfort metrics (app.py, lines 24 to 37) *)

Definition calculate_wind_chill (temp_f wind_speed_mph : pyval) : result pyval :=
  if is_none temp_f || is_none wind_speed_mph then Ok VNone
  else
    calm ← py_lt_int wind_speed_mph 3;
    if calm : bool then Ok VNone
    else
      wind_chill ← flt 35.74 +! flt 0.6215 *! val temp_f
                    -! flt 35.75 *! (val wind_speed_mph **! flt 0.16)
                    +! flt 0.4275 *! val temp_f *! (val wind_speed_mph **! flt 0.16);
      py_round wind_chill.

Definition calculate_heat_index (temp_f humidity : pyval) : result pyval :=
  if is_none temp_f || is_none humidity then Ok VNone
  else
    H ← val humidity /! flt 100.0;
    HI ← flt C1 +! flt C2 *! val temp_f +! flt C3 *! val H +! flt C4 *! val temp_f *! val H
         +! flt C5 *! val temp_f **! int 2 +! flt C6 *! val H **! int 2
         +! flt C7 *! val temp_f **! int 2 *! val H
         +! flt C8 *! val temp_f *! val H **! int 2
         +! flt C9 *! val temp_f **! int 2 *! val H **! int 2;
    py_round HI.

(** ** Dicts, truth values and formatting *)

(** [obj.get(key)] *)
Definition py_get (obj : pyval) (key : string) : result pyval :=
  match obj with
  | VDict d => Ok (default VNone (d !! key))
  | _ => Raise AttributeError
  end.

(** [obj[key]] with a string key *)
Definition py_getitem (obj : pyval) (key : string) : result pyval :=
  match obj with
  | VDict d =>
      match d !! key with
      | Some v => Ok v
      | None => Raise KeyError
      end
  | _ => Raise TypeError
  end.

(** [obj[key] = v] with a string key *)
Definition py_setitem (obj : pyval) (key : string) (v : pyval) : result pyval :=
  match obj with
  | VDict d => Ok (VDict (<[key := v]> d))
  | _ => Raise TypeError
  end.

(** [obj[:n]] *)
Definition py_slice (obj : pyval) (n : nat) : result pyval :=
  match obj with
  | VList l => Ok (VList (take n l))
  | VStr s => Ok (VStr (join (take n (chars s))))
  | _ => Raise TypeError
  end.

(** The items a [for] loop sees. *)
Definition py_iter (obj : pyval) : result (list pyval) :=
  match obj with
  | VList l => Ok l
  | VStr s => Ok (VStr <$> chars s)
  | VDict d => Ok ((λ kv, VStr kv.1) <$> map_to_list d)
  | _ => Raise TypeError
  end.

(** [bool(v)] *)
Definition truthy (v : pyval) : bool :=
  match v with
  | VNone => false
  | VBool b => b
  | VInt z => negb (z =? 0)
  | VFloat f => negb (is_zero f)
  | VStr s => negb (is_empty s)
  | VList l => negb (bool_decide (length l = 0%nat))
  | VDict d => negb (bool_decide (size d = 0%nat))
  end.

(** [v.split()] *)
Definition py_split (v : pyval) : result (list string) :=
  match v with
  | VStr s => Ok (split s)
  | _ => Raise AttributeError
  end.

(** [l[0]] *)
Definition py_first (l : list string) : result string :=
  match l with
  | t :: _ => Ok t
  | [] => Raise IndexError
  end.

(** [v.replace(old, new)] *)
Definition py_replace (v : pyval) (old new : string) : result pyval :=
  match v with
  | VStr s => Ok (VStr (replace old new s))
  | _ => Raise AttributeError
  end.

(** A replacement field of an f-string. *)
Definition format_value (v : pyval) : string :=
  match v with
  | VNone => "None"
  | VBool b => if b then "True" else "False"
  | VInt z => pretty z
  | VStr s => s
  | _ => py_repr v
  end.

(** ** The helpers of [home] (app.py, lines 66 to 78) *)

Definition get_value (value : pyval) (round_to_int : bool) : result pyval :=
  match value with
  | VDict d =>
      match d !! "value" with
      | Some val => if round_to_int && negb (is_none val) then py_round val else Ok val
      | None => Ok value
      end
  | VStr s => Ok (VStr (strip (replace nl " " s)))
  | _ => Ok value
  end.

Definition pad2 (n : Z) : string :=
  if n <? 10 then "0" +:+ pretty n else pretty n.

(** [dt.strftime("%I %p")] in the C locale *)
Definition strftime_I_p (dt : datetime) : string :=
  let h := dt_hour dt mod 12 in
  pad2 (if h =? 0 then 12 else h) +:+ " " +:+ (if dt_hour dt <? 12 then "AM" else "PM").

(** [dt.strftime("%m/%d")] *)
Definition strftime_m_d (dt : datetime) : string :=
  pad2 (dt_month dt) +:+ "/" +:+ pad2 (dt_day dt).

Definition format_time (start_time : pyval) (is_first_row : bool) : result string :=
  match start_time with
  | VStr s =>
      dt ← fromisoformat s;
      let time_str := lstrip_char "0" (strftime_I_p dt) in
      let date_str := strftime_m_d dt in
      Ok (if is_first_row || (dt_hour dt =? 0)
          then date_str +:+ "<br>" +:+ time_str else time_str)
  | _ => Raise TypeError
  end.

(** ** One turn of the loop over the periods (app.py, lines 84 to 113) *)

(** [int(v)] on a text *)
Definition int_of_text (s : string) : result pyval :=
  match py_int s with
  | Some z => Ok (VInt z)
  | None => Raise ValueError
  end.

(** Line 87: the leading integer of the wind-speed text. *)
Definition wind_speed_mph_of (wind_speed : pyval) : result pyval :=
  let first_token := tokens ← py_split wind_speed; py_first tokens in
  if truthy wind_speed then
    tok ← first_token;
    if isdigit tok then tok' ← first_token; int_of_text tok'
    else Ok VNone
  else Ok VNone.

(** Line 90 *)
Definition dewpoint_f_of (dewpoint_c : pyval) : result pyval :=
  if negb (is_none dewpoint_c)
  then x ← val dewpoint_c *! int 9 /! int 5 +! int 32; py_round x
  else Ok VNone.

(** Lines 95 to 102 *)
Definition real_feel_of (temp_f wind_chill heat_index : pyval) : result pyval :=
  if negb (is_none wind_chill) && negb (is_none heat_index)
  then x ← (val wind_chill +! val heat_index) /! int 2; py_round x
  else if negb (is_none wind_chill) then Ok wind_chill
  else if negb (is_none heat_index) then Ok heat_index
  else Ok temp_f.

(** Line 109 *)
Definition wind_speed_display (wind_speed : pyval) : result pyval :=
  if truthy wind_speed then py_replace wind_speed "&nbsp;" " " else Ok (VStr "").

(** What lines 84 to 102 compute from a period. *)
Record metrics := {
  m_temp_f : pyval;
  m_humidity : pyval;
  m_wind_speed : pyval;
  m_wind_speed_mph : pyval;
  m_dewpoint_f : pyval;
  m_wind_chill : pyval;
  m_heat_index : pyval;
  m_real_feel : pyval
}.

Definition derive (period : pyval) : result metrics :=
  temperature ← py_get period "temperature";
  temp_f ← get_value temperature false;
  relativeHumidity ← py_get period "relativeHumidity";
  humidity ← get_value relativeHumidity false;
  windSpeed ← py_get period "windSpeed";
  wind_speed ← get_value windSpeed false;
  wind_speed_mph ← wind_speed_mph_of wind_speed;
  dewpoint ← py_get period "dewpoint";
  dewpoint_c ← get_value dewpoint false;
  dewpoint_f ← dewpoint_f_of dewpoint_c;
  wind_chill ← calculate_wind_chill temp_f wind_speed_mph;
  heat_index ← calculate_heat_index temp_f humidity;
  real_feel ← real_feel_of temp_f wind_chill heat_index;
  Ok {| m_temp_f := temp_f;
        m_humidity := humidity;
        m_wind_speed := wind_speed;
        m_wind_speed_mph := wind_speed_mph;
        m_dewpoint_f := dewpoint_f;
        m_wind_chill := wind_chill;
        m_heat_index := heat_index;
        m_real_feel := real_feel |}.

(** Lines 105 to 107: a derived value as the table shows it. *)
Definition degrees_or_blank (v : pyval) : pyval :=
  VStr (if negb (is_none v) then format_value v +:+ "°F" else "").

(** The loop body: the period after the assignments of lines 104 to 110,
    the chart label and the chart value it appends. *)
Definition enrich (period : pyval) : result (pyval * string * pyval) :=
  m ← derive period;
  period ← py_setitem period "realFeel" (VStr (format_value (m_real_feel m) +:+ "°F"));
  period ← py_setitem period "windChill" (degrees_or_blank (m_wind_chill m));
  period ← py_setitem period "heatIndex" (degrees_or_blank (m_heat_index m));
  period ← py_setitem period "dewpoint" (degrees_or_blank (m_dewpoint_f m));
  shown ← wind_speed_display (m_wind_speed m);
  period ← py_setitem period "windSpeed" shown;
  probabilityOfPrecipitation ← py_get period "probabilityOfPrecipitation";
  precipitation ← get_value probabilityOfPrecipitation true;
  period ← py_setitem period "precipitationProbability" precipitation;
  startTime ← py_getitem period "startTime";
  label ← format_time startTime false;
  Ok (period, label, m_real_feel m).

(** The loop, with the two chart lists it appends to. *)
Fixpoint enrich_each (periods : list pyval) (chart_labels : list string)
    (chart_real_feel : list pyval) : result (list pyval * list string * list pyval) :=
  match periods with
  | [] => Ok ([], chart_labels, chart_real_feel)
  | period :: rest =>
      '(period', label, real_feel) ← enrich period;
      '(rest', labels, values) ←
        enrich_each rest (chart_labels ++ [label]) (chart_real_feel ++ [real_feel]);
      Ok (period' :: rest', labels, values)
  end.

(** ** The world of one request

    [points] is the provider's reply to the lookup of the fixed coordinate;
    [gridpoint office x y] is its reply to the hourly forecast request built
    from the three values read from the first reply; [clock] is the hour
    that [datetime.now(est).hour] reads after [pytz.timezone], or what
    either raises. *)

Inductive reply :=
  | Failed (e : exn)
  | Response (status_code : Z) (body : option pyval).

Record world := {
  points : reply;
  gridpoint : pyval → pyval → pyval → reply;
  clock : result Z
}.

(** [requests.get(url)], [raise_for_status()] and [json()] *)
Definition requests_get (r : reply) : result (Z * option pyval) :=
  match r with
  | Failed e => Raise e
  | Response status_code body => Ok (status_code, body)
  end.

Definition raise_for_status (response : Z * option pyval) : result unit :=
  if (400 <=? response.1) && (response.1 <? 600) then Raise HTTPError else Ok ().

Definition json (response : Z * option pyval) : result pyval :=
  match response.2 with
  | Some v => Ok v
  | None => Raise JSONDecodeError
  end.

(** ** [get_hourly_forecast] (app.py, lines 39 to 54) *)

(** The body of the [try] block up to [forecast_data['properties']['periods']]:
    the period list as the provider sent it. *)
Definition provider_periods (w : world) : result pyval :=
  response ← requests_get (points w);
  _ ← raise_for_status response;
  grid_data ← json response;
  office ← (properties ← py_getitem grid_data "properties"; py_getitem properties "gridId");
  grid_x ← (properties ← py_getitem grid_data "properties"; py_getitem properties "gridX");
  grid_y ← (properties ← py_getitem grid_data "properties"; py_getitem properties "gridY");
  forecast_response ← requests_get (gridpoint w office grid_x grid_y);
  _ ← raise_for_status forecast_response;
  forecast_data ← json forecast_response;
  properties ← py_getitem forecast_data "properties";
  py_getitem properties "periods".

(** The body of the [try] block. *)
Definition fetch_periods (w : world) : result pyval :=
  periods ← provider_periods w;
  py_slice periods 24.

Definition get_hourly_forecast (w : world) : pyval :=
  match fetch_periods w with
  | Ok hourly_forecast => hourly_forecast
  | Raise _ => VList []
  end.

(** ** [home] (app.py, lines 56 to 204) *)

(** What the template is rendered from: the theme, the two chart arrays and
    one table row per period, each row with its time cell and the period
    record the other cells read. *)
Record page := {
  theme : string;
  chart_labels : list string;
  chart_real_feel : list pyval;
  table_rows : list (string * pyval)
}.

(** How a call of [home] ends: it returns the rendered template, it returns
    the error text of line 64, or an exception leaves the function. *)
Inductive outcome :=
  | Rendered (pg : page)
  | ErrorText (e : exn)
  | Escapes (e : exn).

(** The status of the response Flask builds from it. *)
Definition status_code (o : outcome) : Z :=
  match o with
  | Rendered _ | ErrorText _ => 200
  | Escapes _ => 500
  end.

(** Line 62 *)
Definition theme_of (current_hour : Z) : string :=
  if (19 <=? current_hour) || (current_hour <? 6) then "dark" else "light".

(** [period.startTime] in the template: the item, or undefined. *)
Definition jinja_attr (obj : pyval) (key : string) : option pyval :=
  match obj with
  | VDict d => d !! key
  | _ => None
  end.

(** The [for] block of the template; [first] is [loop.first]. *)
Fixpoint render_rows (first : bool) (periods : list pyval) : result (list (string * pyval)) :=
  match periods with
  | [] => Ok []
  | period :: rest =>
      time_cell ← match jinja_attr period "startTime" with
                  | Some start_time => format_time start_time first
                  | None => Raise TypeError
                  end;
      rows ← render_rows false rest;
      Ok ((time_cell, period) :: rows)
  end.

(** Lines 80 to 113: the two empty chart lists and the loop. *)
Definition enrichment (hourly_forecast : pyval)
    : result (list pyval * list string * list pyval) :=
  periods ← py_iter hourly_forecast;
  enrich_each periods [] [].

Definition home (w : world) : outcome :=
  match (let hourly_forecast := get_hourly_forecast w in
         current_hour ← clock w;
         Ok (hourly_forecast, theme_of current_hour)) with
  | Raise e => ErrorText e
  | Ok (hourly_forecast, theme) =>
      match enrichment hourly_forecast with
      | Raise e => Escapes e
      | Ok (hourly_forecast, chart_labels, chart_real_feel) =>
          match render_rows true hourly_forecast with
          | Raise e => Escapes e
          | Ok rows =>
              Rendered {| theme := theme;
                          chart_labels := chart_labels;
                          chart_real_feel := chart_real_feel;
                          table_rows := rows |}
          end
      end
  end.

(** ** The formulas as the specification writes them

    These follow the words of the specification, on floats, for comparison
    with the functions above.  [p] stands for [v^0.16], [T2] for [T²] and
    [H2] for [H²]. *)

Definition windChill_formula (T p : float) : float :=
  (35.74 + 0.6215 * T - 35.75 * p + 0.4275 * T * p)%float.

Definition windChill_spec (T : num) (v : Z) : result pyval :=
  Tf ← to_float T;
  vf ← float_of_int v;
  p ← float_pow vf 0.16;
  z ← round_float (windChill_formula Tf p);
  Ok (VInt z).

Definition rothfusz (T T2 H H2 : float) : float :=
  (C1 + C2 * T + C3 * H + C4 * T * H + C5 * T2 + C6 * H2
   + C7 * T2 * H + C8 * T * H2 + C9 * T2 * H2)%float.

(** The square of an int is exact; the square of a float is [pow]'s. *)
Definition squared (n : num) : result float :=
  match n with
  | NInt z => float_of_int (z ^ 2)
  | NFloat f => float_pow f 2
  end.

Definition heatIndex_spec (T humidityPct : num) : result pyval :=
  h ← to_float humidityPct;
  let H := (h / 100)%float in
  Tf ← to_float T;
  T2 ← squared T;
  H2 ← float_pow H 2;
  z ← round_float (rothfusz Tf T2 H H2);
  Ok (VInt z).

End Runtime.

(** The average of two ints, rounded to the nearest int, a half going to
    the even neighbour. *)
Definition average_rounded (a b : Z) : Z :=
  let q := (a + b) / 2 in
  if Z.even (a + b) then q else if Z.even q then q else q + 1.

(** An optional number as a Python value. *)
Definition py_of (o : option num) : pyval := from_option of_num VNone o.

(** ** A runtime for the examples

    [sample_pow] stands in for the C library's [pow] where an example needs
    a value: a square is the product, and a power with an exponent in
    [0, 1) is built from repeated square roots, one per binary digit of the
    exponent. *)

Fixpoint pow_frac (digits : nat) (root acc y : float) : float :=
  match digits with
  | O => acc
  | S n =>
      let root := sqrt root in
      let y := (y * 2)%float in
      if (1 <=? y)%float then pow_frac n root (acc * root)%float (y - 1)%float
      else pow_frac n root acc y
  end.

Definition sample_pow (x y : float) : result float :=
  if (y =? 2)%float then Ok (x * x)%float
  else if (0 <? x)%float && (0 <=? y)%float && (y <? 1)%float then Ok (pow_frac 60 x 1 y)
  else Raise OverflowError.

(** Decimal numbers in ASCII digits. *)
Definition is_digit (c : ascii) : bool :=
  let n := nat_of_ascii c in
  ((48 <=? n) && (n <=? 57))%nat.

Fixpoint all_digits (s : string) : bool :=
  match s with
  | EmptyString => true
  | String c s' => is_digit c && all_digits s'
  end.

Definition ascii_number (s : string) : bool := negb (is_empty s) && all_digits s.

Fixpoint int_from (acc : Z) (s : string) : Z :=
  match s with
  | EmptyString => acc
  | String c s' => int_from (10 * acc + (Z.of_nat (nat_of_ascii c) - 48)) s'
  end.

Definition int_of_digits (s : string) : Z := int_from 0 s.

(** A sample of the character database: the decimal digits of ASCII, the
    Arabic-Indic digits and the fullwidth digits, with their values, and
    the superscript digits one, two and three, which [str.isdigit] accepts
    and [int] does not read. *)
Definition sample_decimal (n : Z) : option Z :=
  if (0x30 <=? n) && (n <=? 0x39) then Some (n - 0x30)
  else if (0x660 <=? n) && (n <=? 0x669) then Some (n - 0x660)
  else if (0xFF10 <=? n) && (n <=? 0xFF19) then Some (n - 0xFF10)
  else None.

Definition sample_digit (c : string) : bool :=
  match code_point c with
  | Some n => bool_decide (is_Some (sample_decimal n)) || (n =? 0xB2) || (n =? 0xB3) || (n =? 0xB9)
  | None => false
  end.

Definition sample_isdigit (s : string) : bool :=
  negb (is_empty s) && forallb sample_digit (chars s).

Fixpoint sample_int_from (acc : Z) (cs : list string) : option Z :=
  match cs with
  | [] => Some acc
  | c :: cs' =>
      match code_point c ≫= sample_decimal with
      | Some d => sample_int_from (10 * acc + d) cs'
      | None => None
      end
  end.

(** [int] on the tokens [str.isdigit] accepts. *)
Definition sample_int (s : string) : option Z :=
  if is_empty s then None else sample_int_from 0 (chars s).

(** Reads the month, day and hour of [YYYY-MM-DDTHH:...]. *)
Definition sample_fromisoformat (s : string) : result datetime :=
  let field i := String.substring i 2 s in
  if ascii_number (field 5%nat) && ascii_number (field 8%nat) && ascii_number (field 11%nat)
  then Ok {| dt_month := int_of_digits (field 5%nat);
             dt_day := int_of_digits (field 8%nat);
             dt_hour := int_of_digits (field 11%nat) |}
  else Raise ValueError.

Definition sample_repr (v : pyval) : string := "<repr>".

(** Whether rounding the float quotient [s / 2] gives the rounded average
    of two ints with sum [s]. *)
Definition average_exact (s : Z) : bool :=
  match x ← int_true_divide s 2; round_float x with
  | Ok z => z =? average_rounded s 0
  | Raise _ => false
  end.

(** [check] holds on the [n] ints from [lo] on. *)
Fixpoint holds_from (check : Z → bool) (lo : Z) (n : nat) : bool :=
  match n with
  | O => true
  | S n' => check lo && holds_from check (lo + 1) n'
  end.

(** ** The display strings and the wind-speed text of the specification *)

(** The display string of the specification for a derived value: the
    integer followed by the degree sign and F, empty for null. *)
Definition display (v : pyval) : pyval :=
  match v with
  | VInt z => VStr (pretty z +:+ "°F")
  | _ => VStr ""
  end.

(** What the specification reads off a wind-speed text: the integer of its
    first whitespace-delimited token when that token is all digits, null
    otherwise.  [isdigit] says what all digits means and [py_int] reads the
    integer; a token of digits that [py_int] does not read raises
    [ValueError]. *)
Definition leading_int (isdigit : string → bool) (py_int : string → option Z)
    (text : string) : result pyval :=
  match split text with
  | token :: _ =>
      if isdigit token
      then match py_int token with
           | Some z => Ok (VInt z)
           | None => Raise ValueError
           end
      else Ok VNone
  | [] => Ok VNone
  end.


(** A derived value is null or an int. *)
Definition int_or_none (v : pyval) : Prop := v = VNone ∨ ∃ z, v = VInt z.

(** What [replace] of a newline by a space does to one byte, and to every
    byte of a string. *)
Definition unfold_line (c : ascii) : ascii :=
  if Ascii.eqb c (ascii_of_nat 10) then " "%char else c.

Fixpoint map_chars (f : ascii → ascii) (s : string) : string :=
  match s with
  | EmptyString => EmptyString
  | String c s' => String (f c) (map_chars f s')
  end.

(** ** Sample provider data, for the examples *)

Definition dict (items : list (string * pyval)) : pyval := VDict (list_to_map items).

Definition sample_period (temperature windSpeed : pyval) : pyval :=
  dict [("startTime", VStr "2024-01-05T14:00:00-05:00");
        ("temperature", temperature);
        ("windSpeed", windSpeed);
        ("relativeHumidity", dict [("unitCode", VStr "wmoUnit:percent"); ("value", VInt 50)]);
        ("dewpoint", dict [("unitCode", VStr "wmoUnit:degC"); ("value", VFloat 10.5)]);
        ("probabilityOfPrecipitation",
         dict [("unitCode", VStr "wmoUnit:percent"); ("value", VInt 20)])].

Definition grid_reply : reply :=
  Response 200 (Some (dict [("properties",
    dict [("gridId", VStr "BUF"); ("gridX", VInt 35); ("gridY", VInt 47)])])).

Definition forecast_reply (periods : list pyval) : reply :=
  Response 200 (Some (dict [("properties", dict [("periods", VList periods)])])).

Definition sample_world (periods : list pyval) (hour : result Z) : world :=
  {| points := grid_reply;
     gridpoint := λ _ _ _, forecast_reply periods;
     clock := hour |}.

Definition sample_home : world → outcome :=
  home sample_pow sample_fromisoformat sample_repr sample_isdigit sample_int.

Definition sample_enrich : pyval → result (pyval * string * pyval) :=
  enrich sample_pow sample_fromisoformat sample_repr sample_isdigit sample_int.



(** The cell of an enriched period, for the examples. *)
Definition cell (key : string) (r : result (pyval * string * pyval)) : result pyval :=
  enriched ← r; py_get enriched.1.1 key.

(** ** More of the program's behaviour: auxiliary definitions *)

(** The keys the loop body assigns (app.py, lines 104 to 110). *)
Definition assigned_keys : list string :=
  ["realFeel"; "windChill"; "heatIndex"; "dewpoint"; "windSpeed";
   "precipitationProbability"].

(** A reply on which [requests.get], [raise_for_status] or [json] raises. *)
Definition reply_fails (r : reply) : bool :=
  match r with
  | Failed _ => true
  | Response status_code body =>
      (400 <=? status_code) && (status_code <? 600) || negb (bool_decide (is_Some body))
  end.

(** Whether the byte [c] occurs in [s], and whether [s] starts or ends
    with a whitespace character. *)
Fixpoint has_char (c : ascii) (s : string) : bool :=
  match s with
  | EmptyString => false
  | String c' s' => Ascii.eqb c c' || has_char c s'
  end.

Definition starts_with_space (s : string) : bool :=
  match chars s with
  | c :: _ => is_space c
  | [] => false
  end.

Definition ends_with_space (s : string) : bool :=
  match last (chars s) with
  | Some c => is_space c
  | None => false
  end.

(** ** Well-formed lists of characters

    The lists that [chars] returns, and their sublists: a character is one
    byte below 128, or a byte from 128 on followed by continuation bytes
    only, and no character that would have taken it in is followed by a
    continuation byte. *)

Fixpoint all_continuation (s : string) : bool :=
  match s with
  | EmptyString => true
  | String b s' => is_continuation b && all_continuation s'
  end.

Definition char_shape (c : string) : bool :=
  match c with
  | EmptyString => false
  | String b rest => if 128 <=? byte b then all_continuation rest else is_empty rest
  end.

Definition merges (c c' : string) : bool :=
  match c, c' with
  | String b _, String b' _ => (128 <=? byte b) && is_continuation b'
  | _, _ => false
  end.

Fixpoint wf (cs : list string) : bool :=
  match cs with
  | [] => true
  | c :: cs' =>
      char_shape c
      && match cs' with
         | c' :: _ => negb (merges c c')
         | [] => true
         end
      && wf cs'
  end.

(** The hour on a 12-hour clock, without padding, and its half of the
    day. *)
Definition clock12 (hour : Z) : string :=
  pretty (if hour mod 12 =? 0 then 12 else hour mod 12)
  +:+ " " +:+ (if hour <? 12 then "AM" else "PM").

(** Whether [format_time] writes the hour [hour] as [clock12] does. *)
Definition label_exact (hour : Z) : bool :=
  String.eqb
    (lstrip_char "0" (strftime_I_p {| dt_month := 1; dt_day := 1; dt_hour := hour |}))
    (clock12 hour).

(** Whether line 90 takes the int [c] to the integer nearest to
    [9 c / 5 + 32], which is never half way between two. *)
Definition dewpoint_exact (c : Z) : bool :=
  match dewpoint_f_of (VInt c) with
  | Ok (VInt f) => (-2 <=? 5 * f - (9 * c + 160)) && (5 * f - (9 * c + 160) <=? 2)
  | _ => false
  end.

(** * Properties *)

Section Properties.

Context (float_pow : float → float → result float).
Context (fromisoformat : string → result datetime).
Context (py_repr : pyval → string).
Context (isdigit : string → bool).
Context (py_int : string → option Z).

Local Abbreviation enrich := (enrich float_pow fromisoformat py_repr isdigit py_int).
Local Abbreviation enrich_each := (enrich_each float_pow fromisoformat py_repr isdigit py_int).
Local Abbreviation derive := (derive float_pow isdigit py_int).
Local Abbreviation home := (home float_pow fromisoformat py_repr isdigit py_int).
Local Abbreviation format_time := (format_time fromisoformat).
Local Abbreviation render_rows := (render_rows fromisoformat).
Local Abbreviation enrichment := (enrichment float_pow fromisoformat py_repr isdigit py_int).
Local Abbreviation wind_speed_mph_of := (wind_speed_mph_of isdigit py_int).
Local Abbreviation leading_int := (leading_int isdigit py_int).


Ltac bind_inv H :=
  repeat match type of H with
  | (?r ≫= _) = Ok _ =>
      let E := fresh "E" in
      destruct r eqn:E; cbn [mbind result_bind] in H; [| discriminate H]
  end.


(** ** Numbers *)

Lemma float_of_int_2 : float_of_int 2 = Ok 2%float.
Proof. vm_compute. reflexivity. Qed.

Lemma py_round_not_none v : py_round v ≠ Ok VNone.
Proof.
  unfold py_round. destruct (as_num v) as [[z|f]|]; try discriminate.
  destruct (round_float f); discriminate.
Qed.

Lemma bind_round_not_none (r : result pyval) : r ≫= py_round ≠ Ok VNone.
Proof. destruct r; cbn; [apply py_round_not_none | discriminate]. Qed.

(** A finite float is a zero or has a mantissa and an exponent. *)
Lemma finite_cases (p : float) :
  is_finite p = true →
  (∃ s, Prim2SF p = S754_zero s) ∨ (∃ s m e, Prim2SF p = S754_finite s m e).
Proof.
  unfold is_finite, Prim2SF. intros Hfin.
  destruct (is_nan p); [discriminate |].
  destruct (is_infinity p); [discriminate |].
  destruct (is_zero p); [left; eauto |].
  destruct (Z.frexp p) as [r e].
  destruct (shr_fexp _ _ _ _ _) as [shr e'].
  destruct (shr_m shr); [left | right | left]; eauto.
Qed.

(** Adding the product of zero and a finite float does not change what a
    float rounds to. *)
Lemma round_float_add_zero_mul (x p : float) :
  is_finite p = true → round_float (x + 0 * p) = round_float x.
Proof.
  intros Hfin. unfold round_float.
  rewrite add_spec, mul_spec.
  change (Prim2SF 0) with (S754_zero false).
  destruct (finite_cases p Hfin) as [[s ->] | (s & m & e & ->)];
    destruct (Prim2SF x) as [[] | [] | | sx mx ex]; destruct s; reflexivity.
Qed.

Ltac step_effect :=
  match goal with
  | |- context [float_of_int 2] => rewrite float_of_int_2
  | |- context [float_of_int ?z] => destruct (float_of_int z)
  | |- context [float_pow ?x ?y] => destruct (float_pow x y)
  | |- context [round_float ?x] => destruct (round_float x)
  end; cbn; try reflexivity.

(** ** The comfort metrics *)

Lemma heat_index_formula (T h : num) :
  calculate_heat_index float_pow (of_num T) (of_num h) = heatIndex_spec float_pow T h.
Proof.
  unfold calculate_heat_index, heatIndex_spec.
  destruct T as [t|t], h as [h|h]; cbn; repeat step_effect.
Qed.

Lemma wind_chill_formula (T : num) (v : Z) :
  3 ≤ v →
  calculate_wind_chill float_pow (of_num T) (VInt v) = windChill_spec float_pow T v.
Proof.
  intros Hv. unfold calculate_wind_chill, windChill_spec.
  assert ((v <? 3) = false) as Hlt by lia.
  destruct T as [t|t]; cbn; rewrite Hlt; cbn; repeat step_effect.
Qed.

Lemma wind_chill_none_iff (t : option num) (v : option Z) :
  calculate_wind_chill float_pow (py_of t) (py_of (NInt <$> v)) = Ok VNone
  ↔ t = None ∨ v = None ∨ ∃ z, v = Some z ∧ z < 3.
Proof.
  destruct t as [T|], v as [z|]; cbn.
  - destruct (Z.ltb_spec z 3) as [Hlt | Hge].
    + split; [intros _; right; right; eauto |].
      intros _. unfold calculate_wind_chill.
      destruct T; cbn; apply Z.ltb_lt in Hlt; rewrite Hlt; reflexivity.
    + rewrite wind_chill_formula by exact Hge. split.
      * unfold windChill_spec. intros Heq. exfalso.
        destruct (to_float T); [|discriminate]. cbn in Heq.
        destruct (float_of_int z); [|discriminate]. cbn in Heq.
        destruct (float_pow _ _); [|discriminate]. cbn in Heq.
        destruct (round_float _); discriminate.
      * intros [? | [? | (z' & [= <-] & ?)]]; [discriminate.. | lia].
  - destruct T; split; eauto.
  - split; eauto.
  - split; eauto.
Qed.

Lemma heat_index_none_iff (t h : option num) :
  calculate_heat_index float_pow (py_of t) (py_of h) = Ok VNone ↔ t = None ∨ h = None.
Proof.
  destruct t as [T|], h as [H|]; cbn.
  - rewrite heat_index_formula. split; [| intros [|]; discriminate].
    unfold heatIndex_spec. intros Heq. exfalso.
    destruct (to_float H); [|discriminate]. cbn in Heq.
    destruct (to_float T); [|discriminate]. cbn in Heq.
    destruct (squared _ _); [|discriminate]. cbn in Heq.
    destruct (float_pow _ _); [|discriminate]. cbn in Heq.
    destruct (round_float _); discriminate.
  - destruct T; split; eauto.
  - split; eauto.
  - split; eauto.
Qed.

(** At 0 degrees and 3 mph the terms in [T] vanish. *)
Lemma wind_chill_0_3 (p : float) :
  float_pow 3 0.16 = Ok p → is_finite p = true →
  calculate_wind_chill float_pow (VInt 0) (VInt 3)
  = z ← round_float (35.74 - 35.75 * p)%float; Ok (VInt z).
Proof.
  intros Hp Hfin.
  change (VInt 0) with (of_num (NInt 0)).
  rewrite (wind_chill_formula (NInt 0) 3) by lia.
  unfold windChill_spec, windChill_formula; cbn.
  change (float_of_int 0) with (Ok 0%float).
  change (float_of_int 3) with (Ok 3%float). cbn.
  rewrite Hp. cbn.
  change (35.74 + 0.6215 * 0)%float with 35.74%float.
  change (0.4275 * 0)%float with 0%float.
  rewrite round_float_add_zero_mul by exact Hfin. reflexivity.
Qed.

(** ** The blend of wind chill and heat index *)

Lemma holds_from_spec (check : Z → bool) (n : nat) (lo s : Z) :
  holds_from check lo n = true → lo ≤ s < lo + Z.of_nat n → check s = true.
Proof.
  revert lo. induction n as [|n IH]; intros lo Hall Hs; [lia|].
  cbn [holds_from] in Hall. apply andb_prop in Hall as [Hlo Hrest].
  destruct (Z.eq_dec s lo) as [-> | Hne]; [exact Hlo |].
  apply (IH (lo + 1)); [exact Hrest | lia].
Qed.

Lemma average_exact_range : holds_from average_exact (-10000) (Z.to_nat 20001) = true.
Proof. vm_compute. reflexivity. Qed.

Lemma average_exact_within (s : Z) : -10000 ≤ s ≤ 10000 → average_exact s = true.
Proof.
  intros Hs. apply (holds_from_spec _ _ _ _ average_exact_range). lia.
Qed.

Lemma average_rounded_sum (a b : Z) : average_rounded a b = average_rounded (a + b) 0.
Proof. unfold average_rounded. rewrite Z.add_0_r. reflexivity. Qed.

Lemma real_feel_both (temp_f : pyval) (a b : Z) :
  real_feel_of temp_f (VInt a) (VInt b)
  = x ← int_true_divide (a + b) 2; z ← round_float x; Ok (VInt z).
Proof. unfold real_feel_of. cbn. destruct (int_true_divide (a + b) 2); reflexivity. Qed.

Lemma real_feel_average (temp_f : pyval) (a b : Z) :
  Z.abs a ≤ 5000 → Z.abs b ≤ 5000 →
  real_feel_of temp_f (VInt a) (VInt b) = Ok (VInt (average_rounded a b)).
Proof.
  intros Ha Hb. rewrite real_feel_both.
  assert (average_exact (a + b) = true) as Hex by (apply average_exact_within; lia).
  unfold average_exact in Hex.
  destruct (int_true_divide (a + b) 2) as [x|]; [|discriminate]. cbn in *.
  destruct (round_float x) as [z|]; [|discriminate]. cbn.
  apply Z.eqb_eq in Hex. rewrite average_rounded_sum. rewrite <- Hex. reflexivity.
Qed.

(** ** The claims about the comfort metrics *)

(** C1.  The heat index the code returns for 90 degrees and 50 percent is
    87, not the 96 of the claim: the humidity enters the regression as the
    fraction 0.5.  The square of 0.5 is exact, so every [pow] that is right
    to less than one unit in the last place returns 0.25 for it. *)
Theorem heat_index_90_50 :
  float_pow 0.5 2 = Ok 0.25%float →
  calculate_heat_index float_pow (VInt 90) (VInt 50) = Ok (VInt 87).
Proof.
  intros Hp.
  change (VInt 90) with (of_num (NInt 90)). change (VInt 50) with (of_num (NInt 50)).
  rewrite heat_index_formula. unfold heatIndex_spec, squared; cbn.
  change (float_of_int 50) with (Ok 50%float). cbn.
  change (50 / 100)%float with 0.5%float. rewrite Hp.
  vm_compute. reflexivity.
Qed.

(** The same polynomial with the humidity in percent, as the regression's
    coefficients expect it, gives 95 at 90 degrees and 50 percent. *)
Remark rothfusz_percent_90_50 : round_float (rothfusz 90 8100 50 2500) = Ok 95.
Proof. vm_compute. reflexivity. Qed.

(** C3.  Wind chill is null exactly when the temperature is null, the wind
    speed is null or the wind speed is below 3; otherwise it is the formula
    of the specification, rounded to the nearest integer; at 0 degrees and
    3 mph that is the rounding of [35.74 - 35.75 * 3^0.16]. *)
Theorem wind_chill_correct (tempF : option num) (windSpeedMph : option Z) :
  (calculate_wind_chill float_pow (py_of tempF) (py_of (NInt <$> windSpeedMph)) = Ok VNone
   ↔ tempF = None ∨ windSpeedMph = None ∨ ∃ v, windSpeedMph = Some v ∧ v < 3)
  ∧ (∀ T v, tempF = Some T → windSpeedMph = Some v → 3 ≤ v →
       calculate_wind_chill float_pow (py_of tempF) (py_of (NInt <$> windSpeedMph))
       = windChill_spec float_pow T v)
  ∧ (∀ p, float_pow 3 0.16 = Ok p → is_finite p = true →
       calculate_wind_chill float_pow (VInt 0) (VInt 3)
       = z ← round_float (35.74 - 35.75 * p)%float; Ok (VInt z)).
Proof.
  split; [apply wind_chill_none_iff | split].
  - intros T v -> -> Hv. apply wind_chill_formula, Hv.
  - apply wind_chill_0_3.
Qed.

(** C4.  With both wind chill and heat index present the real feel is the
    rounding of their float average, which is their average rounded to the
    nearest integer; with one of them present it is that one; with neither
    it is the raw temperature, null included. *)
Theorem real_feel_blend (tempF : pyval) :
  (∀ windChill heatIndex,
     real_feel_of tempF (VInt windChill) (VInt heatIndex)
     = x ← int_true_divide (windChill + heatIndex) 2; z ← round_float x; Ok (VInt z))
  ∧ (∀ windChill heatIndex,
       Z.abs windChill ≤ 5000 → Z.abs heatIndex ≤ 5000 →
       real_feel_of tempF (VInt windChill) (VInt heatIndex)
       = Ok (VInt (average_rounded windChill heatIndex)))
  ∧ real_feel_of tempF (VInt 20) (VInt 100) = Ok (VInt 60)
  ∧ (∀ windChill, real_feel_of tempF (VInt windChill) VNone = Ok (VInt windChill))
  ∧ (∀ heatIndex, real_feel_of tempF VNone (VInt heatIndex) = Ok (VInt heatIndex))
  ∧ real_feel_of tempF VNone VNone = Ok tempF.
Proof.
  repeat split; try reflexivity.
  - intros a b. apply real_feel_both.
  - intros a b. apply real_feel_average.
Qed.

(** C5.  Heat index is null exactly when the temperature or the humidity is
    null; otherwise, whatever the two values are, it is the Rothfusz
    regression in [T] and [H = humidityPct / 100] with the nine
    coefficients, rounded to the nearest integer. *)
Theorem heat_index_correct (tempF humidityPct : option num) :
  (calculate_heat_index float_pow (py_of tempF) (py_of humidityPct) = Ok VNone
   ↔ tempF = None ∨ humidityPct = None)
  ∧ (∀ T h, tempF = Some T → humidityPct = Some h →
       calculate_heat_index float_pow (py_of tempF) (py_of humidityPct)
       = heatIndex_spec float_pow T h).
Proof.
  split; [apply heat_index_none_iff |].
  intros T h -> ->. apply heat_index_formula.
Qed.

(** ** Text *)

Lemma append_nil (s : string) : "" +:+ s = s.
Proof. reflexivity. Qed.

Lemma append_cons (b : ascii) (s t : string) : String b s +:+ t = String b (s +:+ t).
Proof. reflexivity. Qed.

Lemma chars_single (b : ascii) : chars (String b "") = [String b ""].
Proof. reflexivity. Qed.

Lemma chars_cons (b b' : ascii) (s : string) :
  chars (String b (String b' s))
  = if (128 <=? byte b) && is_continuation b'
    then match chars (String b' s) with
         | c :: cs => String b c :: cs
         | [] => [String b ""]
         end
    else String b "" :: chars (String b' s).
Proof. reflexivity. Qed.

Lemma chars_head (b : ascii) (s : string) : ∃ r cs, chars (String b s) = String b r :: cs.
Proof.
  destruct s as [|b' s]; [rewrite chars_single; eauto |].
  rewrite chars_cons. destruct (_ && _); [| eauto].
  destruct (chars (String b' s)); eauto.
Qed.

Lemma join_chars (s : string) : join (chars s) = s.
Proof.
  induction s as [|b s IH]; [reflexivity |].
  destruct s as [|b' s]; [reflexivity |].
  rewrite chars_cons. destruct (chars_head b' s) as (r & cs & Hcs).
  rewrite Hcs in IH |- *. destruct (_ && _).
  - change (join (String b (String b' r) :: cs)) with (String b (join (String b' r :: cs))).
    rewrite IH. reflexivity.
  - change (join (String b "" :: String b' r :: cs)) with (String b (join (String b' r :: cs))).
    rewrite IH. reflexivity.
Qed.

Lemma continuation_from_128 (b : ascii) : is_continuation b = true → (128 <=? byte b) = true.
Proof. unfold is_continuation. intros [H _]%andb_prop. exact H. Qed.

Lemma wf_cons (c c' : string) (cs : list string) :
  wf (c :: c' :: cs) = char_shape c && negb (merges c c') && wf (c' :: cs).
Proof. reflexivity. Qed.

Lemma wf_chars (s : string) : wf (chars s) = true.
Proof.
  induction s as [|b s IH]; [reflexivity |].
  destruct s as [|b' s].
  - rewrite chars_single. cbn. destruct (128 <=? byte b); reflexivity.
  - rewrite chars_cons. destruct (chars_head b' s) as (r & cs & Hcs). rewrite Hcs in IH |- *.
    destruct ((128 <=? byte b) && is_continuation b') eqn:Hcond.
    + apply andb_prop in Hcond as [Hb Hb'].
      pose proof (continuation_from_128 _ Hb') as Hb'128.
      destruct cs as [|c' cs].
      * cbn [wf char_shape all_continuation] in IH |- *.
        rewrite Hb'128, !andb_true_r in IH. rewrite Hb, Hb', IH. reflexivity.
      * rewrite wf_cons in IH |- *.
        apply andb_prop in IH as [[Hshape Hnext]%andb_prop Hwf].
        rewrite Hwf, andb_true_r. cbn [char_shape all_continuation] in Hshape |- *.
        rewrite Hb'128 in Hshape. rewrite Hb, Hb', Hshape. cbn [andb].
        destruct c' as [|b2 r2]; [reflexivity |].
        cbn [merges] in Hnext |- *. rewrite Hb'128 in Hnext. rewrite Hb. exact Hnext.
    + rewrite wf_cons, IH, andb_true_r. cbn [merges]. rewrite Hcond. cbn [negb].
      rewrite andb_true_r. cbn. destruct (128 <=? byte b); reflexivity.
Qed.

Lemma chars_append (rest : string) (b : ascii) (t : string) :
  (128 <=? byte b) = true → all_continuation rest = true →
  match t with
  | String b2 _ => is_continuation b2 = false
  | EmptyString => True
  end →
  chars (String b (rest +:+ t)) = String b rest :: chars t.
Proof.
  revert b. induction rest as [|r rest IH]; intros b Hb Hrest Ht.
  - rewrite append_nil. destruct t as [|b2 t]; [reflexivity |].
    rewrite chars_cons, Ht, andb_false_r. reflexivity.
  - cbn [all_continuation] in Hrest. apply andb_prop in Hrest as [Hr Hrest].
    rewrite append_cons, chars_cons, Hb, Hr. cbn [andb].
    rewrite (IH r (continuation_from_128 _ Hr) Hrest Ht). reflexivity.
Qed.

Lemma chars_join (cs : list string) : wf cs = true → chars (join cs) = cs.
Proof.
  induction cs as [|c cs IH]; [reflexivity |].
  cbn [wf]. intros [[Hshape Hnext]%andb_prop Hwf]%andb_prop. specialize (IH Hwf).
  destruct c as [|b rest]; [discriminate Hshape |]. cbn [char_shape] in Hshape.
  cbn [join]. destruct (128 <=? byte b) eqn:Hb.
  - rewrite append_cons, chars_append, IH; [reflexivity | exact Hb | exact Hshape |].
    destruct cs as [|c' cs']; [exact I |].
    destruct c' as [|b2 r2]; [discriminate Hwf |]. cbn [join]. rewrite append_cons.
    cbn [merges] in Hnext. rewrite Hb in Hnext. cbn [andb] in Hnext.
    destruct (is_continuation b2); [discriminate Hnext | reflexivity].
  - destruct rest; [| discriminate Hshape]. rewrite append_cons, append_nil.
    destruct (join cs) as [|b2 t] eqn:Hj; [rewrite <- IH; reflexivity |].
    rewrite chars_cons, Hb. cbn [andb]. rewrite IH. reflexivity.
Qed.

Lemma wf_tail (c : string) (cs : list string) : wf (c :: cs) = true → wf cs = true.
Proof. cbn [wf]. intros [_ H]%andb_prop. exact H. Qed.

Lemma wf_lstrip (cs : list string) : wf cs = true → wf (lstrip cs) = true.
Proof.
  induction cs as [|c cs IH]; [auto |]. intros Hwf. cbn [lstrip].
  destruct (is_space c); [apply IH, (wf_tail _ _ Hwf) | exact Hwf].
Qed.

Lemma rstrip_head (c : string) (cs : list string) :
  rstrip (c :: cs) = [] ∨ ∃ r, rstrip (c :: cs) = c :: r.
Proof. cbn [rstrip]. destruct (_ && _); eauto. Qed.

Lemma wf_rstrip (cs : list string) : wf cs = true → wf (rstrip cs) = true.
Proof.
  induction cs as [|c cs IH]; [auto |].
  cbn [wf]. intros [[Hshape Hnext]%andb_prop Hwf]%andb_prop. specialize (IH Hwf).
  cbn [rstrip]. destruct (is_space c && bool_decide (rstrip cs = [])); [reflexivity |].
  cbn [wf]. rewrite Hshape, IH, andb_true_r. cbn [andb].
  destruct cs as [|c' cs']; [reflexivity |].
  destruct (rstrip_head c' cs') as [-> | [r ->]]; [reflexivity | exact Hnext].
Qed.

Lemma wf_take (n : nat) (cs : list string) : wf cs = true → wf (take n cs) = true.
Proof.
  revert n. induction cs as [|c cs IH]; intros [|n]; try reflexivity.
  cbn [wf]. intros [[Hshape Hnext]%andb_prop Hwf]%andb_prop. specialize (IH n Hwf).
  cbn [take wf]. rewrite Hshape, IH, andb_true_r. cbn [andb].
  destruct cs as [|c' cs']; [destruct n; reflexivity |].
  destruct n; [reflexivity | exact Hnext].
Qed.

Lemma split_lstrip (cs : list string) : split_from "" (lstrip cs) = split_from "" cs.
Proof.
  induction cs as [|c cs IH]; [reflexivity |].
  cbn [lstrip split_from]. destruct (is_space c) eqn:Hc; [exact IH |].
  cbn [split_from]. rewrite Hc. reflexivity.
Qed.

Lemma split_from_rstrip (cur : string) (cs : list string) :
  split_from cur (rstrip cs) = split_from cur cs.
Proof.
  revert cur. induction cs as [|c cs IH]; intros cur; [reflexivity |].
  cbn [rstrip]. destruct (is_space c) eqn:Hc; cbn [andb].
  - destruct (bool_decide_reflect (rstrip cs = [])) as [He | Hne].
    + cbn [split_from]. rewrite Hc, <- (IH ""), He. reflexivity.
    + cbn [split_from]. rewrite Hc, !IH. reflexivity.
  - cbn [split_from]. rewrite Hc. apply IH.
Qed.

Lemma split_from_nonempty (cur : string) (cs : list string) :
  is_empty cur = false → split_from cur cs ≠ [].
Proof.
  revert cur. induction cs as [|c cs IH]; intros cur Hcur; cbn [split_from].
  - rewrite Hcur. discriminate.
  - destruct (is_space c) eqn:Hc.
    + rewrite Hcur. discriminate.
    + apply IH. destruct cur; [discriminate Hcur | reflexivity].
Qed.

Lemma split_nil_lstrip (cs : list string) :
  Forall (λ c, is_empty c = false) cs → split_from "" cs = [] → lstrip cs = [].
Proof.
  induction 1 as [|c cs Hc _ IH]; [reflexivity |].
  cbn [split_from lstrip is_empty]. destruct (is_space c); [exact IH |].
  intros H. exfalso. revert H. apply split_from_nonempty.
  destruct c; [discriminate Hc | reflexivity].
Qed.

Lemma wf_nonempty (cs : list string) : wf cs = true → Forall (λ c, is_empty c = false) cs.
Proof.
  induction cs as [|c cs IH]; [constructor |].
  cbn [wf]. intros [[Hshape _]%andb_prop Hwf]%andb_prop.
  constructor; [destruct c; [discriminate Hshape | reflexivity] | exact (IH Hwf)].
Qed.

Lemma split_strip (s : string) : split (strip s) = split s.
Proof.
  unfold strip, split.
  rewrite chars_join by apply wf_rstrip, wf_lstrip, wf_chars.
  rewrite split_from_rstrip. apply split_lstrip.
Qed.

Lemma strip_empty_iff (s : string) : is_empty (strip s) = true ↔ split s = [].
Proof.
  split.
  - intros H. rewrite <- split_strip. destruct (strip s); [reflexivity | discriminate].
  - intros H. unfold strip.
    rewrite (split_nil_lstrip (chars s) (wf_nonempty _ (wf_chars s)) H). reflexivity.
Qed.

(** Newlines, turned into spaces byte by byte. *)

Lemma replace_nl (s : string) : replace nl " " s = map_chars unfold_line s.
Proof.
  unfold replace, nl. induction s as [|c s IH]; [reflexivity |].
  cbn [replace_from map_chars String.prefix String.length Nat.pred].
  unfold unfold_line at 1.
  destruct (ascii_dec (ascii_of_nat 10) c) as [<- | Hne].
  - rewrite Ascii.eqb_refl. destruct s; cbn [String.append]; rewrite IH; reflexivity.
  - destruct (Ascii.eqb_spec c (ascii_of_nat 10)) as [-> | _]; [contradiction |].
    rewrite IH. reflexivity.
Qed.

Lemma byte_unfold_line (b : ascii) :
  (128 <=? byte (unfold_line b)) = (128 <=? byte b)
  ∧ is_continuation (unfold_line b) = is_continuation b.
Proof.
  unfold unfold_line. destruct (Ascii.eqb_spec b (ascii_of_nat 10)) as [-> | _]; split; reflexivity.
Qed.

Lemma chars_unfold_lines (s : string) :
  chars (map_chars unfold_line s) = map_chars unfold_line <$> chars s.
Proof.
  induction s as [|b s IH]; [reflexivity |].
  destruct s as [|b' s]; [reflexivity |].
  cbn [map_chars] in IH |- *. rewrite !chars_cons, IH.
  destruct (byte_unfold_line b) as [-> _]. destruct (byte_unfold_line b') as [_ ->].
  destruct (chars_head b' s) as (r & cs & ->).
  destruct (_ && _); reflexivity.
Qed.

Lemma unfold_lines_continuation (s : string) :
  all_continuation s = true → map_chars unfold_line s = s.
Proof.
  induction s as [|b s IH]; [reflexivity |]. cbn [all_continuation map_chars].
  intros [Hb Hs]%andb_prop. rewrite (IH Hs). f_equal.
  unfold unfold_line. destruct (Ascii.eqb_spec b (ascii_of_nat 10)) as [-> | _];
    [discriminate Hb | reflexivity].
Qed.

Lemma unfold_line_char (c : string) :
  char_shape c = true →
  is_space (map_chars unfold_line c) = is_space c
  ∧ (is_space c = false → map_chars unfold_line c = c).
Proof.
  destruct c as [|b rest]; [discriminate |]. cbn [char_shape map_chars].
  destruct (128 <=? byte b) eqn:Hb.
  - intros Hrest. rewrite (unfold_lines_continuation _ Hrest).
    assert (unfold_line b = b) as ->; [| auto].
    unfold unfold_line. destruct (Ascii.eqb_spec b (ascii_of_nat 10)) as [-> | _];
      [discriminate Hb | reflexivity].
  - destruct rest; [| discriminate]. intros _. cbn [map_chars].
    unfold unfold_line. destruct (Ascii.eqb_spec b (ascii_of_nat 10)) as [-> | _]; [| auto].
    split; [reflexivity | discriminate].
Qed.

Lemma split_from_unfold_lines (cur : string) (cs : list string) :
  Forall (λ c, char_shape c = true) cs →
  split_from cur (map_chars unfold_line <$> cs) = split_from cur cs.
Proof.
  intros Hcs. revert cur. induction Hcs as [|c cs Hc _ IH]; intros cur; [reflexivity |].
  cbn [fmap list_fmap split_from]. destruct (unfold_line_char c Hc) as [-> Hsame].
  destruct (is_space c) eqn:Hsp.
  - rewrite !IH. reflexivity.
  - rewrite (Hsame eq_refl). apply IH.
Qed.

Lemma wf_shapes (cs : list string) : wf cs = true → Forall (λ c, char_shape c = true) cs.
Proof.
  induction cs as [|c cs IH]; [constructor |].
  cbn [wf]. intros [[Hshape _]%andb_prop Hwf]%andb_prop. constructor; auto.
Qed.

Lemma split_unfold_lines (s : string) : split (map_chars unfold_line s) = split s.
Proof.
  unfold split. rewrite chars_unfold_lines.
  apply split_from_unfold_lines, wf_shapes, wf_chars.
Qed.

(** The tokens of the text [get_value] returns are those of the text it
    was given. *)
Lemma split_get_value (s : string) : split (strip (replace nl " " s)) = split s.
Proof. rewrite split_strip, replace_nl. apply split_unfold_lines. Qed.

Lemma wind_speed_mph_of_text (s : string) :
  (wind_speed ← get_value (VStr s) false; wind_speed_mph_of wind_speed) = leading_int s.
Proof.
  cbn [get_value mbind result_bind]. unfold wind_speed_mph_of, leading_int.
  cbn [truthy py_split mbind result_bind]. rewrite split_get_value.
  destruct (is_empty (strip (replace nl " " s))) eqn:He; cbn [negb].
  - apply strip_empty_iff in He. rewrite replace_nl, split_unfold_lines in He.
    rewrite He. reflexivity.
  - destruct (split s) as [|tok toks] eqn:Hs.
    + exfalso. assert (is_empty (strip (replace nl " " s)) = true) as Habs
        by (apply strip_empty_iff; rewrite replace_nl, split_unfold_lines; exact Hs).
      congruence.
    + cbn. destruct (isdigit tok); reflexivity.
Qed.


(** ** The shape of the derived values *)

Lemma py_round_int v r : py_round v = Ok r → ∃ z, r = VInt z.
Proof.
  unfold py_round. destruct (as_num v) as [[z|f]|]; [| |discriminate].
  - intros [= <-]. eauto.
  - destruct (round_float f); [|discriminate]. intros [= <-]. eauto.
Qed.

Lemma wind_chill_shape temp_f wind_speed_mph r :
  calculate_wind_chill float_pow temp_f wind_speed_mph = Ok r → int_or_none r.
Proof.
  unfold calculate_wind_chill.
  destruct (is_none temp_f || is_none wind_speed_mph); [intros [= <-]; left; reflexivity |].
  intros H. bind_inv H. destruct a; [injection H as <-; left; reflexivity |].
  bind_inv H. right. eapply py_round_int, H.
Qed.

Lemma heat_index_shape temp_f humidity r :
  calculate_heat_index float_pow temp_f humidity = Ok r → int_or_none r.
Proof.
  unfold calculate_heat_index.
  destruct (is_none temp_f || is_none humidity); [intros [= <-]; left; reflexivity |].
  intros H. bind_inv H. right. eapply py_round_int, H.
Qed.

Lemma dewpoint_shape dewpoint_c r : dewpoint_f_of dewpoint_c = Ok r → int_or_none r.
Proof.
  unfold dewpoint_f_of. destruct (negb (is_none dewpoint_c)).
  - intros H. bind_inv H. right. eapply py_round_int, H.
  - intros [= <-]. left. reflexivity.
Qed.

Lemma real_feel_shape temp_f wind_chill heat_index r :
  int_or_none wind_chill → int_or_none heat_index →
  real_feel_of temp_f wind_chill heat_index = Ok r →
  (∃ z, r = VInt z) ∨ (wind_chill = VNone ∧ heat_index = VNone ∧ r = temp_f).
Proof.
  intros [-> | [a ->]] [-> | [b ->]]; unfold real_feel_of; cbn [is_none negb andb].
  - intros [= <-]. right. auto.
  - intros [= <-]. left. eauto.
  - intros [= <-]. left. eauto.
  - intros H. bind_inv H. left. eapply py_round_int, H.
Qed.

Lemma derive_shape period m :
  derive period = Ok m →
  int_or_none (m_wind_chill m) ∧ int_or_none (m_heat_index m) ∧ int_or_none (m_dewpoint_f m)
  ∧ ((∃ z, m_real_feel m = VInt z)
     ∨ (m_wind_chill m = VNone ∧ m_heat_index m = VNone ∧ m_real_feel m = m_temp_f m)).
Proof.
  unfold derive. intros H. bind_inv H. injection H as <-. cbn.
  pose proof (wind_chill_shape _ _ _ E9) as Hwc.
  pose proof (heat_index_shape _ _ _ E10) as Hhi.
  pose proof (dewpoint_shape _ _ E8) as Hdp.
  pose proof (real_feel_shape _ _ _ _ Hwc Hhi E11) as Hrf.
  auto.
Qed.

Lemma derive_temperature period m :
  derive period = Ok m →
  (t ← py_get period "temperature"; get_value t false) = Ok (m_temp_f m).
Proof.
  unfold derive. intros H. bind_inv H. injection H as <-. exact E0.
Qed.

(** ** The loop body, inverted *)

Lemma enrich_inv period period' label real_feel :
  enrich period = Ok (period', label, real_feel) →
  ∃ d m shown precipitation start_time,
    period = VDict d
    ∧ derive period = Ok m
    ∧ real_feel = m_real_feel m
    ∧ wind_speed_display (m_wind_speed m) = Ok shown
    ∧ get_value (default VNone (d !! "probabilityOfPrecipitation")) true = Ok precipitation
    ∧ period' = VDict (<["precipitationProbability" := precipitation]>
                       (<["windSpeed" := shown]>
                       (<["dewpoint" := degrees_or_blank py_repr (m_dewpoint_f m)]>
                       (<["heatIndex" := degrees_or_blank py_repr (m_heat_index m)]>
                       (<["windChill" := degrees_or_blank py_repr (m_wind_chill m)]>
                       (<["realFeel" := VStr (format_value py_repr (m_real_feel m) +:+ "°F")]> d))))))
    ∧ d !! "startTime" = Some start_time
    ∧ format_time start_time false = Ok label.
Proof.
  unfold enrich. intros H. bind_inv H. injection H as <- <- <-.
  destruct period as [| | | | | |d]; try discriminate.
  cbn in E0. injection E0 as <-. cbn in E1. injection E1 as <-.
  cbn in E2. injection E2 as <-. cbn in E3. injection E3 as <-.
  cbn in E5. injection E5 as <-. cbn in E6. injection E6 as <-.
  cbn in E8. injection E8 as <-.
  rewrite !lookup_insert_ne in E7 by discriminate.
  unfold py_getitem in E9.
  destruct (_ !! "startTime") as [st|] eqn:Est in E9; [|discriminate].
  injection E9 as <-. rewrite !lookup_insert_ne in Est by discriminate.
  exists d, a, a4, a7, st. repeat split; auto.
Qed.

(** ** The loop *)

Lemma enrich_each_inv periods labels values periods' labels' values' :
  enrich_each periods labels values = Ok (periods', labels', values') →
  ∃ rs, Forall2 (λ p r, enrich p = Ok r) periods rs
        ∧ periods' = rs.*1.*1
        ∧ labels' = labels ++ rs.*1.*2
        ∧ values' = values ++ rs.*2.
Proof.
  revert labels values periods' labels' values'.
  induction periods as [|p periods IH]; intros L V ps' ls vs; cbn.
  - intros [= <- <- <-]. exists []. rewrite !app_nil_r. repeat split. constructor.
  - intros H. bind_inv H. destruct a as [[p' l] v]. bind_inv H.
    destruct a as [[rest' ls'] vs']. injection H as <- <- <-.
    destruct (IH _ _ _ _ _ E0) as (rs & Hrs & -> & -> & ->).
    exists ((p', l, v) :: rs). cbn. rewrite <- !app_assoc. repeat split.
    constructor; assumption.
Qed.

Lemma enrich_each_intro periods rs labels values :
  Forall2 (λ p r, enrich p = Ok r) periods rs →
  enrich_each periods labels values
  = Ok (rs.*1.*1, labels ++ rs.*1.*2, values ++ rs.*2).
Proof.
  intros Hrs. revert labels values.
  induction Hrs as [|p r periods rs Hp _ IH]; intros L V; cbn.
  - rewrite !app_nil_r. reflexivity.
  - rewrite Hp. destruct r as [[p' l] v]. cbn. rewrite IH. cbn.
    rewrite <- !app_assoc. reflexivity.
Qed.

(** ** The table *)

Lemma format_time_first start_time first label :
  format_time start_time first = Ok label →
  ∀ first', ∃ label', format_time start_time first' = Ok label'.
Proof.
  unfold format_time. destruct start_time; try discriminate.
  destruct (fromisoformat s); [|discriminate]. cbn. eauto.
Qed.

Lemma render_rows_enriched rs periods first :
  Forall2 (λ p r, enrich p = Ok r) periods rs →
  ∃ rows, render_rows first rs.*1.*1 = Ok rows ∧ rows.*2 = rs.*1.*1.
Proof.
  intros Hrs. revert first.
  induction Hrs as [|p r periods rs Hp _ IH]; intros first; cbn.
  - exists []. split; reflexivity.
  - destruct r as [[p' l] v].
    destruct (enrich_inv _ _ _ _ Hp) as (d & m & shown & pr & st & _ & _ & _ & _ & _ & -> & Hst & Hl).
    cbn. rewrite !lookup_insert_ne by discriminate. rewrite Hst.
    destruct (format_time_first _ _ _ Hl first) as [cell' ->].
    destruct (IH false) as (rows & -> & Hrows). cbn.
    eexists. split; [reflexivity |]. cbn. rewrite Hrows. reflexivity.
Qed.


(** ** The route *)

Lemma home_clock_raises w e : clock w = Raise e → home w = ErrorText e.
Proof. unfold home. intros ->. reflexivity. Qed.

Lemma home_enrichment_raises w h e :
  clock w = Ok h → enrichment (get_hourly_forecast w) = Raise e → home w = Escapes e.
Proof.
  intros Hclock Hloop. unfold home. rewrite Hclock. cbv zeta. cbn [mbind result_bind].
  rewrite Hloop. reflexivity.
Qed.

Lemma home_enriched w h periods rs :
  clock w = Ok h → py_iter (get_hourly_forecast w) = Ok periods →
  Forall2 (λ p r, enrich p = Ok r) periods rs →
  ∃ rows, home w = Rendered {| theme := theme_of h;
                               chart_labels := rs.*1.*2;
                               chart_real_feel := rs.*2;
                               table_rows := rows |}
          ∧ rows.*2 = rs.*1.*1.
Proof.
  intros Hclock Hiter Hrs. unfold home, enrichment. rewrite Hclock.
  cbv zeta. cbn [mbind result_bind]. rewrite Hiter. cbn [mbind result_bind].
  rewrite (enrich_each_intro _ _ [] [] Hrs). cbn [app].
  destruct (render_rows_enriched _ _ true Hrs) as (rows & -> & Hrows).
  exists rows. split; [reflexivity | exact Hrows].
Qed.

Lemma home_rendered_inv w pg :
  home w = Rendered pg →
  ∃ h periods rs,
    clock w = Ok h ∧ py_iter (get_hourly_forecast w) = Ok periods
    ∧ Forall2 (λ p r, enrich p = Ok r) periods rs
    ∧ theme pg = theme_of h
    ∧ chart_labels pg = rs.*1.*2
    ∧ chart_real_feel pg = rs.*2
    ∧ (table_rows pg).*2 = rs.*1.*1.
Proof.
  unfold home, enrichment. destruct (clock w) as [h|]; [| discriminate].
  cbv zeta. cbn [mbind result_bind].
  destruct (py_iter (get_hourly_forecast w)) as [periods|] eqn:Hiter; [| discriminate].
  cbn [mbind result_bind].
  destruct (enrich_each periods [] []) as [[[ps' ls] vs]|] eqn:Hloop; [| discriminate].
  destruct (enrich_each_inv _ _ _ _ _ _ Hloop) as (rs & Hrs & -> & -> & ->).
  destruct (render_rows_enriched _ _ true Hrs) as (rows & -> & Hrows).
  intros [= <-]. exists h, periods, rs. cbn. auto 10.
Qed.

Lemma get_hourly_forecast_raise w e : fetch_periods w = Raise e → get_hourly_forecast w = VList [].
Proof. unfold get_hourly_forecast. intros ->. reflexivity. Qed.

Lemma get_hourly_forecast_list w periods :
  provider_periods w = Ok (VList periods) → get_hourly_forecast w = VList (take 24 periods).
Proof. unfold get_hourly_forecast, fetch_periods. intros ->. reflexivity. Qed.

(** ** The claims about the route *)

(** C2.  When the resolution or the fetch raises, whatever the exception,
    [get_hourly_forecast] returns the empty list, and for the hour [h] the
    clock reads the route returns, with status 200, the page whose table
    has no row and whose two chart arrays are empty. *)
Theorem fetch_failure_renders_empty (w : world) (e : exn) (h : Z) :
  fetch_periods w = Raise e → clock w = Ok h →
  get_hourly_forecast w = VList []
  ∧ home w = Rendered {| theme := theme_of h; chart_labels := [];
                         chart_real_feel := []; table_rows := [] |}
  ∧ status_code (home w) = 200.
Proof.
  intros Hfetch Hclock.
  pose proof (get_hourly_forecast_raise _ _ Hfetch) as Hempty.
  assert (home w = Rendered {| theme := theme_of h; chart_labels := [];
                               chart_real_feel := []; table_rows := [] |}) as Hhome.
  { unfold home. rewrite Hclock, Hempty. reflexivity. }
  rewrite Hhome. auto.
Qed.

(** C6.  Of the [N] periods the provider sends, [get_hourly_forecast] keeps
    the first [min N 24], in the provider's order; when the loop enriches
    each of them, the table rows and the two chart arrays have one entry
    per kept period, in the same order, so [min N 24] entries each. *)
Theorem keeps_first_24 (w : world) (periods : list pyval) :
  provider_periods w = Ok (VList periods) →
  get_hourly_forecast w = VList (take 24 periods)
  ∧ length (take 24 periods) = (length periods `min` 24)%nat
  ∧ (∀ i, (i < 24)%nat → take 24 periods !! i = periods !! i)
  ∧ ∀ h rs,
      clock w = Ok h → Forall2 (λ p r, enrich p = Ok r) (take 24 periods) rs →
      ∃ pg, home w = Rendered pg
            ∧ (table_rows pg).*2 = rs.*1.*1
            ∧ chart_labels pg = rs.*1.*2
            ∧ chart_real_feel pg = rs.*2
            ∧ length (table_rows pg) = (length periods `min` 24)%nat
            ∧ length (chart_labels pg) = (length periods `min` 24)%nat
            ∧ length (chart_real_feel pg) = (length periods `min` 24)%nat.
Proof.
  intros Hprov. pose proof (get_hourly_forecast_list _ _ Hprov) as Hkept.
  assert (length (take 24 periods) = (length periods `min` 24)%nat) as Hlen
    by (rewrite length_take; lia).
  split; [exact Hkept | split; [exact Hlen | split]].
  - intros i Hi. apply lookup_take_lt, Hi.
  - intros h rs Hclock Hrs.
    destruct (home_enriched w h (take 24 periods) rs Hclock) as (rows & Hhome & Hrows);
      [rewrite Hkept; reflexivity | exact Hrs |].
    pose proof (Forall2_length _ _ _ Hrs) as Hn.
    eexists. split; [exact Hhome |]. cbn.
    assert (length rows = length rs) as Hr
      by (rewrite <- (length_fmap snd rows), Hrows, !length_fmap; reflexivity).
    rewrite !length_fmap, Hr. repeat split; auto; lia.
Qed.


(** ** The claims about the enriched periods *)

Lemma degrees_or_blank_display v :
  int_or_none v → degrees_or_blank py_repr v = display v.
Proof. intros [-> | [z ->]]; reflexivity. Qed.

Lemma enrich_chart_entry period period' label real_feel :
  enrich period = Ok (period', label, real_feel) →
  py_get period' "realFeel" = Ok (VStr (format_value py_repr real_feel +:+ "°F"))
  ∧ (∃ start_time, jinja_attr period' "startTime" = Some start_time
                   ∧ format_time start_time false = Ok label)
  ∧ ((∃ z, real_feel = VInt z)
     ∨ (t ← py_get period' "temperature"; get_value t false) = Ok real_feel).
Proof.
  intros Hp.
  destruct (enrich_inv _ _ _ _ Hp)
    as (d & m & shown & pr & st & -> & Hm & -> & _ & _ & -> & Hst & Hl).
  split; [| split].
  - cbn. rewrite !lookup_insert_ne by discriminate. rewrite lookup_insert_eq. reflexivity.
  - exists st. cbn. rewrite !lookup_insert_ne by discriminate. auto.
  - destruct (derive_shape _ _ Hm) as (_ & _ & _ & [Hint | (_ & _ & Hraw)]); [left; exact Hint |].
    right. cbn [py_get]. rewrite !lookup_insert_ne by discriminate.
    rewrite Hraw. exact (derive_temperature _ _ Hm).
Qed.

(** C7.  On the enriched period the wind chill, the heat index and the
    dewpoint are stored as the display string of the specification: the
    integer followed by the degree sign and F, or the empty string for
    null.  The real feel is stored as its formatted value followed by the
    degree sign and F without a test for null: an integer real feel gives
    the display string, a null real feel gives the text None followed by
    the degree sign and F instead of the empty string. *)
Theorem display_strings (period period' : pyval) (label : string) (real_feel : pyval) :
  enrich period = Ok (period', label, real_feel) →
  (∃ m, derive period = Ok m
        ∧ real_feel = m_real_feel m
        ∧ py_get period' "windChill" = Ok (display (m_wind_chill m))
        ∧ py_get period' "heatIndex" = Ok (display (m_heat_index m))
        ∧ py_get period' "dewpoint" = Ok (display (m_dewpoint_f m)))
  ∧ (∀ z, real_feel = VInt z → py_get period' "realFeel" = Ok (display real_feel))
  ∧ (real_feel = VNone → py_get period' "realFeel" = Ok (VStr "None°F")).
Proof.
  intros Hp.
  destruct (enrich_chart_entry _ _ _ _ Hp) as (Hrf & _ & _).
  destruct (enrich_inv _ _ _ _ Hp)
    as (d & m & shown & pr & st & -> & Hm & -> & _ & _ & -> & _ & _).
  destruct (derive_shape _ _ Hm) as (Hwc & Hhi & Hdp & _).
  split; [| split].
  - exists m. cbn [py_get].
    rewrite <- (degrees_or_blank_display _ Hwc), <- (degrees_or_blank_display _ Hhi),
      <- (degrees_or_blank_display _ Hdp).
    repeat split; auto.
    + rewrite !lookup_insert_ne by discriminate. rewrite lookup_insert_eq. reflexivity.
    + rewrite !lookup_insert_ne by discriminate. rewrite lookup_insert_eq. reflexivity.
    + rewrite !lookup_insert_ne by discriminate. rewrite lookup_insert_eq. reflexivity.
  - intros z Hz. rewrite Hrf, Hz. reflexivity.
  - intros Hnone. rewrite Hrf, Hnone. reflexivity.
Qed.

Lemma derive_real_feel period m :
  derive period = Ok m →
  (m_wind_chill m ≠ VNone ∨ m_heat_index m ≠ VNone → ∃ z, m_real_feel m = VInt z)
  ∧ (m_wind_chill m = VNone → m_heat_index m = VNone → m_real_feel m = m_temp_f m).
Proof.
  intros Hm. destruct (derive_shape _ _ Hm) as (Hwc & Hhi & _ & _).
  unfold derive in Hm. bind_inv Hm. injection Hm as <-. cbn in *.
  destruct Hwc as [-> | [wc ->]], Hhi as [-> | [hi ->]];
    unfold real_feel_of in E11; cbn [is_none negb andb] in E11.
  - injection E11 as <-. split; [intros [[] | []]; reflexivity | reflexivity].
  - injection E11 as <-. split; [eauto | discriminate].
  - injection E11 as <-. split; [eauto | discriminate].
  - bind_inv E11. split; [intros _; eapply py_round_int, E11 | discriminate].
Qed.

(** C8, as amended.  On a rendered page the labels, the real-feel values
    and the table rows have one entry for each period of the forecast that
    [get_hourly_forecast] returned, in the order of the forecast.  Entry
    [i] belongs to period [i]: the label is the formatted start time of
    that period, the value is the real feel lines 84 to 102 derive from
    it, and row [i] is that period enriched, its real-feel cell showing
    that value.  The value is an integer when the period has a wind chill
    or a heat index; when it has neither, the value is the period's raw
    temperature, which is null when the temperature is null. *)
Theorem chart_series_parallel (w : world) (pg : page) :
  home w = Rendered pg →
  ∃ periods,
    py_iter (get_hourly_forecast w) = Ok periods
    ∧ length (chart_labels pg) = length periods
    ∧ length (chart_real_feel pg) = length periods
    ∧ length (table_rows pg) = length periods
    ∧ ∀ i period, periods !! i = Some period →
        ∃ m label row start_time,
          derive period = Ok m
          ∧ chart_labels pg !! i = Some label
          ∧ chart_real_feel pg !! i = Some (m_real_feel m)
          ∧ table_rows pg !! i = Some row
          ∧ jinja_attr period "startTime" = Some start_time
          ∧ jinja_attr row.2 "startTime" = Some start_time
          ∧ format_time start_time false = Ok label
          ∧ py_get row.2 "realFeel"
            = Ok (VStr (format_value py_repr (m_real_feel m) +:+ "°F"))
          ∧ (m_wind_chill m ≠ VNone ∨ m_heat_index m ≠ VNone →
               ∃ z, m_real_feel m = VInt z)
          ∧ (m_wind_chill m = VNone → m_heat_index m = VNone →
               m_real_feel m = m_temp_f m
               ∧ (t ← py_get period "temperature"; get_value t false) = Ok (m_temp_f m)).
Proof.
  intros Hhome.
  destruct (home_rendered_inv _ _ Hhome)
    as (h & periods & rs & _ & Hiter & Hrs & _ & Hls & Hvs & Hrows).
  pose proof (Forall2_length _ _ _ Hrs) as Hn.
  assert (length (table_rows pg) = length rs) as Hlen
    by (rewrite <- (length_fmap snd), Hrows, !length_fmap; reflexivity).
  exists periods. split; [exact Hiter |].
  rewrite Hls, Hvs, !length_fmap, Hlen.
  split; [auto | split; [auto | split; [auto |]]].
  intros i period Hperiod.
  destruct (Forall2_lookup_l _ _ _ _ _ Hrs Hperiod) as ([[p' l] v] & Hr & Hp).
  assert ((table_rows pg).*2 !! i = Some p') as Hi
    by (rewrite Hrows, !list_lookup_fmap, Hr; reflexivity).
  rewrite list_lookup_fmap in Hi.
  destruct (table_rows pg !! i) as [row|] eqn:Hrow; [| discriminate Hi].
  cbn in Hi. injection Hi as Hrow2.
  destruct (enrich_chart_entry _ _ _ _ Hp) as (Hcell & _ & _).
  destruct (enrich_inv _ _ _ _ Hp)
    as (d & m & shown & pr & st & -> & Hm & -> & _ & _ & Hp' & Hst & Hl).
  destruct (derive_real_feel _ _ Hm) as [Hint Hraw].
  exists m, l, row, st. rewrite !list_lookup_fmap, Hr, Hrow2. cbn.
  split; [exact Hm |]. do 3 (split; [reflexivity |]).
  split; [exact Hst |].
  split; [rewrite Hp'; cbn; rewrite !lookup_insert_ne by discriminate; exact Hst |].
  split; [exact Hl |]. split; [exact Hcell |]. split; [exact Hint |].
  intros Hwc Hhi. split; [exact (Hraw Hwc Hhi) |].
  exact (derive_temperature _ _ Hm).
Qed.

(** C10, as amended.  A request ends in one of three ways.  When the clock
    raises, [home] returns the error text.  When the clock reads an hour
    and the loop raises on no period, [home] returns the rendered page,
    with an empty forecast when the fetch raised.  When the loop raises,
    nothing catches the exception and it leaves [home]. *)
Theorem home_outcomes (w : world) :
  (∀ e, clock w = Raise e → home w = ErrorText e)
  ∧ (∀ h r, clock w = Ok h → enrichment (get_hourly_forecast w) = Ok r →
       ∃ pg, home w = Rendered pg)
  ∧ (∀ h e, clock w = Ok h → fetch_periods w = Raise e →
       ∃ pg, home w = Rendered pg ∧ table_rows pg = [] ∧ chart_labels pg = [])
  ∧ (∀ h e, clock w = Ok h → enrichment (get_hourly_forecast w) = Raise e →
       home w = Escapes e).
Proof.
  split; [apply home_clock_raises | split; [| split]].
  - intros h [[ps' ls] vs] Hclock Hloop. unfold enrichment in Hloop.
    destruct (py_iter (get_hourly_forecast w)) as [periods|] eqn:Hiter; [| discriminate].
    cbn [mbind result_bind] in Hloop.
    destruct (enrich_each_inv _ _ _ _ _ _ Hloop) as (rs & Hrs & _).
    destruct (home_enriched w h periods rs Hclock Hiter Hrs) as (rows & Hhome & _).
    eauto.
  - intros h e Hclock Hfetch.
    pose proof (get_hourly_forecast_raise _ _ Hfetch) as Hempty.
    exists {| theme := theme_of h; chart_labels := [];
              chart_real_feel := []; table_rows := [] |}.
    split; [| split; reflexivity].
    unfold home. rewrite Hclock, Hempty. reflexivity.
  - intros h e. apply home_enrichment_raises.
Qed.


(** ** The claim about the wind-speed text *)

Lemma derive_wind_speed d m s :
  d !! "windSpeed" = Some (VStr s) → derive (VDict d) = Ok m →
  m_wind_speed m = VStr (strip (replace nl " " s)) ∧ leading_int s = Ok (m_wind_speed_mph m).
Proof.
  intros Hs H. unfold derive in H. bind_inv H. injection H as <-. cbn.
  cbn in E3. rewrite Hs in E3. injection E3 as <-.
  cbn in E4. injection E4 as <-.
  pose proof (wind_speed_mph_of_text s) as Hparse.
  cbn [get_value mbind result_bind] in Hparse. rewrite Hparse in E5. auto.
Qed.


(** * More of the program's behaviour *)

(** ** The metrics on arbitrary values *)

(** X1.  Whatever values they are given, the wind chill, the heat index and
    the Fahrenheit dewpoint are an int or null when they are returned:
    never a float, a string or a container. *)
Theorem metrics_int_or_null (temp_f other r : pyval) :
  (calculate_wind_chill float_pow temp_f other = Ok r → int_or_none r)
  ∧ (calculate_heat_index float_pow temp_f other = Ok r → int_or_none r)
  ∧ (dewpoint_f_of other = Ok r → int_or_none r).
Proof.
  split; [apply wind_chill_shape | split; [apply heat_index_shape | apply dewpoint_shape]].
Qed.

(** X2.  The test on line 25 comes before any arithmetic: with no wind
    speed, or one below 3, the wind chill is null whatever the temperature
    is, text included; with a wind speed of 3 or more a temperature given
    as text raises [TypeError].  The heat index of a temperature given as
    text raises [TypeError] as soon as the humidity is a number. *)
Theorem text_temperature (s : string) :
  calculate_wind_chill float_pow (VStr s) VNone = Ok VNone
  ∧ (∀ v, v < 3 → calculate_wind_chill float_pow (VStr s) (VInt v) = Ok VNone)
  ∧ (∀ v, 3 ≤ v → calculate_wind_chill float_pow (VStr s) (VInt v) = Raise TypeError)
  ∧ calculate_heat_index float_pow (VStr s) VNone = Ok VNone
  ∧ (∀ h f, to_float h = Ok f →
       calculate_heat_index float_pow (VStr s) (of_num h) = Raise TypeError).
Proof.
  split; [reflexivity |]. split; [| split; [| split; [reflexivity |]]].
  - intros v Hv. unfold calculate_wind_chill. cbn.
    apply Z.ltb_lt in Hv. rewrite Hv. reflexivity.
  - intros v Hv. unfold calculate_wind_chill. cbn.
    assert ((v <? 3) = false) as -> by lia. reflexivity.
  - intros h f Hf. unfold calculate_heat_index.
    destruct h as [z|g]; cbn in *.
    + rewrite Hf. reflexivity.
    + reflexivity.
Qed.

(** ** Periods without a temperature, and calm wind *)

(** X3.  A period whose temperature is missing or null has no wind chill,
    no heat index and a null real feel, whatever its wind speed and
    humidity are. *)
Theorem no_temperature (d : gmap string pyval) (m : metrics) :
  derive (VDict d) = Ok m →
  d !! "temperature" = None ∨ d !! "temperature" = Some VNone →
  m_temp_f m = VNone ∧ m_wind_chill m = VNone ∧ m_heat_index m = VNone
  ∧ m_real_feel m = VNone.
Proof.
  intros H Ht. unfold derive in H. bind_inv H. injection H as <-. cbn.
  assert (a = VNone) as ->.
  { cbn in E. injection E as <-. destruct Ht as [-> | ->]; reflexivity. }
  cbn in E0. injection E0 as <-.
  cbn in E9. injection E9 as <-.
  cbn in E10. injection E10 as <-.
  cbn in E11. injection E11 as <-. auto.
Qed.

(** X4.  When the wind-speed text has no token, or a first token that is
    not digits, or one that reads as an integer below 3, the period has no
    wind chill, and its real feel is its heat index when it has one and
    its raw temperature otherwise. *)
Theorem calm_wind (d : gmap string pyval) (m : metrics) (text : string) :
  derive (VDict d) = Ok m →
  d !! "windSpeed" = Some (VStr text) →
  leading_int text = Ok VNone ∨ (∃ v, leading_int text = Ok (VInt v) ∧ v < 3) →
  m_wind_chill m = VNone
  ∧ m_real_feel m = (if is_none (m_heat_index m) then m_temp_f m else m_heat_index m).
Proof.
  intros H Hs Hcalm.
  destruct (derive_wind_speed _ _ _ Hs H) as [_ Hmph].
  unfold derive in H. bind_inv H. injection H as <-. cbn in *.
  assert (a9 = VNone) as ->.
  { unfold calculate_wind_chill in E9. destruct (is_none a0); [cbn in E9; congruence |].
    destruct Hcalm as [Hn | (v & Hv & Hlt)].
    - rewrite Hn in Hmph. injection Hmph as <-. cbn in E9. congruence.
    - rewrite Hv in Hmph. injection Hmph as <-. cbn in E9.
      apply Z.ltb_lt in Hlt. rewrite Hlt in E9. cbn in E9. congruence. }
  split; [reflexivity |].
  unfold real_feel_of in E11. cbn in E11.
  destruct (is_none a10); cbn in E11; congruence.
Qed.

(** ** The wind-speed value of line 87 *)

Lemma split_empty : split "" = [].
Proof. reflexivity. Qed.

Lemma wind_speed_mph_of_raise (wind_speed : pyval) (e : exn) :
  wind_speed_mph_of wind_speed = Raise e
  ↔ (truthy wind_speed = true ∧ (∀ s, wind_speed ≠ VStr s) ∧ e = AttributeError)
    ∨ (∃ s, wind_speed = VStr s ∧ is_empty s = false ∧ split s = [] ∧ e = IndexError)
    ∨ (∃ s token rest, wind_speed = VStr s ∧ split s = token :: rest
         ∧ isdigit token = true ∧ py_int token = None ∧ e = ValueError).
Proof.
  unfold wind_speed_mph_of. split.
  - destruct wind_speed as [| b | z | f | s | l | d]; cbn [truthy py_split].
    + discriminate.
    + destruct b; [| discriminate]. intros [= <-]. left. repeat split. discriminate.
    + destruct (negb (z =? 0)) eqn:Hz; [| discriminate]. intros [= <-]. left.
      repeat split. discriminate.
    + destruct (negb (is_zero f)) eqn:Hz; [| discriminate]. intros [= <-]. left.
      repeat split. discriminate.
    + destruct (is_empty s) eqn:Hs; [discriminate |]. cbn [negb mbind result_bind].
      destruct (split s) as [|tok toks] eqn:Hsplit; cbn.
      * intros [= <-]. right. left. exists s. auto.
      * destruct (isdigit tok) eqn:Hd; [| discriminate]. unfold int_of_text.
        destruct (py_int tok) eqn:Hi; [discriminate |].
        intros [= <-]. right. right. exists s, tok, toks. auto 10.
    + destruct (negb (bool_decide (length l = 0%nat))) eqn:Hl; [| discriminate].
      intros [= <-]. left. repeat split. discriminate.
    + destruct (negb (bool_decide (size d = 0%nat))) eqn:Hd; [| discriminate].
      intros [= <-]. left. repeat split. discriminate.
  - intros [(Htruthy & Hnot & ->)
           | [(s & -> & Hs & Hsplit & ->) | (s & tok & toks & -> & Hsplit & Hd & Hi & ->)]].
    + rewrite Htruthy. destruct wind_speed; try reflexivity. exfalso. eapply Hnot; reflexivity.
    + cbn [truthy py_split]. rewrite Hs. cbn. rewrite Hsplit. reflexivity.
    + cbn [truthy py_split]. destruct s as [|c s]; [rewrite split_empty in Hsplit; discriminate |].
      cbn [is_empty negb mbind result_bind]. rewrite Hsplit. cbn. rewrite Hd.
      unfold int_of_text. rewrite Hi. reflexivity.
Qed.

(** X5.  Line 87 raises [AttributeError] exactly when the wind-speed value
    is truthy and not text, for want of [split]; [IndexError] exactly when
    it is text of whitespace only, which has no first token; [ValueError]
    exactly when it is text whose first token [str.isdigit] accepts and
    [int] does not read; and nothing else.  A falsy value (null, the empty
    text, zero, an empty container) gives null. *)
Theorem wind_speed_mph_raises (wind_speed : pyval) :
  (wind_speed_mph_of wind_speed = Raise AttributeError
   ↔ truthy wind_speed = true ∧ ∀ s, wind_speed ≠ VStr s)
  ∧ (wind_speed_mph_of wind_speed = Raise IndexError
     ↔ ∃ s, wind_speed = VStr s ∧ is_empty s = false ∧ split s = [])
  ∧ (wind_speed_mph_of wind_speed = Raise ValueError
     ↔ ∃ s token rest, wind_speed = VStr s ∧ split s = token :: rest
         ∧ isdigit token = true ∧ py_int token = None)
  ∧ (∀ e, wind_speed_mph_of wind_speed = Raise e →
       e = AttributeError ∨ e = IndexError ∨ e = ValueError)
  ∧ (truthy wind_speed = false → wind_speed_mph_of wind_speed = Ok VNone).
Proof.
  split; [| split; [| split; [| split]]].
  - rewrite wind_speed_mph_of_raise. split.
    + intros [(? & ? & _) | [(s & _ & _ & _ & [=]) | (s & t & r & _ & _ & _ & _ & [=])]]. auto.
    + intros [? ?]. left. auto.
  - rewrite wind_speed_mph_of_raise. split.
    + intros [(_ & _ & [=]) | [(s & ? & ? & ? & _) | (s & t & r & _ & _ & _ & _ & [=])]]. eauto.
    + intros (s & ? & ? & ?). right. left. eauto 10.
  - rewrite wind_speed_mph_of_raise. split.
    + intros [(_ & _ & [=]) | [(s & _ & _ & _ & [=]) | (s & t & r & ? & ? & ? & ? & _)]].
      eauto 10.
    + intros (s & t & r & ? & ? & ? & ?). right. right. eauto 10.
  - intros e He. apply wind_speed_mph_of_raise in He.
    destruct He as [(_ & _ & ->) | [(s & _ & _ & _ & ->) | (s & t & r & _ & _ & _ & _ & ->)]];
      auto.
  - unfold wind_speed_mph_of. intros ->. reflexivity.
Qed.

(** ** One failing period *)

(** X7.  The loop stops at the first period on which the body raises: its
    exception is the loop's, whatever the periods before it (enriched
    without one) and after it are; when the clock reads an hour, that
    exception leaves [home].  A period that is not an object raises
    [AttributeError] on line 84. *)
Theorem first_failure_escapes (before after : list pyval) (period : pyval) (e : exn)
    (rs : list (pyval * string * pyval)) :
  Forall2 (λ p r, enrich p = Ok r) before rs →
  enrich period = Raise e →
  (∀ labels values, enrich_each (before ++ period :: after) labels values = Raise e)
  ∧ (∀ w h, clock w = Ok h → get_hourly_forecast w = VList (before ++ period :: after) →
       home w = Escapes e)
  ∧ (∀ v, (∀ d, v ≠ VDict d) → enrich v = Raise AttributeError).
Proof.
  intros Hrs Hp.
  assert (∀ labels values, enrich_each (before ++ period :: after) labels values = Raise e)
    as Hloop.
  { induction Hrs as [|p r before rs Hok _ IH]; intros L V; cbn.
    - rewrite Hp. reflexivity.
    - rewrite Hok. destruct r as [[p' l] v]. cbn. rewrite IH. reflexivity. }
  split; [exact Hloop | split].
  - intros w h Hclock Hlist. apply (home_enrichment_raises w h e Hclock).
    unfold enrichment. rewrite Hlist. cbn [py_iter mbind result_bind]. apply Hloop.
  - intros v Hv. destruct v; try reflexivity. exfalso. eapply Hv; reflexivity.
Qed.


(** ** The text [get_value] returns *)

Lemma has_char_unfold_lines (s : string) :
  has_char (ascii_of_nat 10) (map_chars unfold_line s) = false.
Proof.
  induction s as [|c s IH]; [reflexivity |]. cbn [map_chars has_char]. rewrite IH.
  unfold unfold_line. destruct (Ascii.eqb_spec c (ascii_of_nat 10)) as [-> | Hne]; [reflexivity |].
  destruct (Ascii.eqb_spec (ascii_of_nat 10) c) as [<- | _]; [contradiction | reflexivity].
Qed.

Lemma unfold_lines_fixed (s : string) :
  has_char (ascii_of_nat 10) s = false → map_chars unfold_line s = s.
Proof.
  induction s as [|c s IH]; [reflexivity |]. cbn [has_char map_chars].
  intros [Hc H]%orb_false_elim. rewrite IH by exact H.
  unfold unfold_line. destruct (Ascii.eqb_spec c (ascii_of_nat 10)) as [-> | _]; [| reflexivity].
  rewrite Ascii.eqb_refl in Hc. discriminate.
Qed.

Lemma has_char_append (b : ascii) (s t : string) :
  has_char b (s +:+ t) = has_char b s || has_char b t.
Proof.
  induction s as [|c s IH]; [reflexivity |].
  rewrite append_cons. cbn [has_char]. rewrite IH, orb_assoc. reflexivity.
Qed.

Lemma has_char_join (b : ascii) (cs : list string) :
  has_char b (join cs) = false ↔ Forall (λ c, has_char b c = false) cs.
Proof.
  induction cs as [|c cs IH]; [split; [constructor | reflexivity] |].
  cbn [join]. rewrite has_char_append, orb_false_iff, IH, Forall_cons. reflexivity.
Qed.

Lemma Forall_lstrip (P : string → Prop) (cs : list string) : Forall P cs → Forall P (lstrip cs).
Proof.
  induction 1 as [|c cs Hc Hcs IH]; [constructor |]. cbn [lstrip].
  destruct (is_space c); [exact IH | constructor; assumption].
Qed.

Lemma Forall_rstrip (P : string → Prop) (cs : list string) : Forall P cs → Forall P (rstrip cs).
Proof.
  induction 1 as [|c cs Hc Hcs IH]; [constructor |]. cbn [rstrip].
  destruct (_ && _); constructor; assumption.
Qed.

Lemma lstrip_head (cs : list string) :
  match lstrip cs with
  | c :: _ => is_space c = false
  | [] => True
  end.
Proof.
  induction cs as [|c cs IH]; [exact I |]. cbn [lstrip].
  destruct (is_space c) eqn:Hc; [exact IH | exact Hc].
Qed.

Lemma rstrip_keeps_head (cs : list string) :
  match cs with
  | c :: _ => is_space c = false
  | [] => True
  end →
  match rstrip cs with
  | c :: _ => is_space c = false
  | [] => True
  end.
Proof.
  destruct cs as [|c cs]; [auto |]. intros Hc. cbn [rstrip]. rewrite Hc. exact Hc.
Qed.

Lemma rstrip_last (cs : list string) :
  match last (rstrip cs) with
  | Some c => is_space c = false
  | None => True
  end.
Proof.
  induction cs as [|c cs IH]; [exact I |]. cbn [rstrip].
  destruct (bool_decide_reflect (rstrip cs = [])) as [He | Hne].
  - rewrite He. destruct (is_space c) eqn:Hc; [exact I | exact Hc].
  - rewrite andb_false_r. destruct (rstrip cs) as [|c' r]; [contradiction |]. exact IH.
Qed.

Lemma lstrip_fixed (cs : list string) :
  match cs with
  | c :: _ => is_space c = false
  | [] => True
  end → lstrip cs = cs.
Proof. destruct cs as [|c cs]; [reflexivity |]. cbn [lstrip]. intros ->. reflexivity. Qed.

Lemma rstrip_fixed (cs : list string) :
  match last cs with
  | Some c => is_space c = false
  | None => True
  end → rstrip cs = cs.
Proof.
  induction cs as [|c cs IH]; [reflexivity |]. cbn [rstrip].
  destruct cs as [|c' cs'].
  - cbn. intros ->. reflexivity.
  - intros H. rewrite IH by exact H. rewrite andb_false_r. reflexivity.
Qed.

(** X8.  The text [get_value] returns for a text has no newline and no
    whitespace character at either end, and has the tokens of the text it
    was given; [get_value] returns it unchanged when it is given it again.
    Only a plain text is treated so: a text under the key [value] of an
    object is returned as it is. *)
Theorem get_value_text (s : string) (round_to_int : bool) :
  ∃ t, get_value (VStr s) round_to_int = Ok (VStr t)
       ∧ has_char (ascii_of_nat 10) t = false
       ∧ starts_with_space t = false
       ∧ ends_with_space t = false
       ∧ split t = split s
       ∧ get_value (VStr t) round_to_int = Ok (VStr t)
       ∧ ∀ d, d !! "value" = Some (VStr s) → get_value (VDict d) false = Ok (VStr s).
Proof.
  exists (strip (replace nl " " s)).
  pose proof (split_get_value s) as Hsplit.
  rewrite replace_nl in Hsplit |- *. unfold strip in Hsplit |- *.
  set (u := map_chars unfold_line s) in *.
  set (cs := rstrip (lstrip (chars u))) in *.
  assert (wf cs = true) as Hwf by apply wf_rstrip, wf_lstrip, wf_chars.
  assert (has_char (ascii_of_nat 10) (join cs) = false) as Hnl.
  { apply has_char_join, Forall_rstrip, Forall_lstrip, has_char_join.
    rewrite join_chars. apply has_char_unfold_lines. }
  pose proof (rstrip_keeps_head _ (lstrip_head (chars u))) as Hhead. fold cs in Hhead.
  pose proof (rstrip_last (lstrip (chars u))) as Hlast. fold cs in Hlast.
  split; [cbn [get_value]; rewrite replace_nl; reflexivity |].
  split; [exact Hnl |].
  split; [unfold starts_with_space; rewrite (chars_join _ Hwf);
          destruct cs; [reflexivity | exact Hhead] |].
  split; [unfold ends_with_space; rewrite (chars_join _ Hwf);
          destruct (last cs); [exact Hlast | reflexivity] |].
  split; [exact Hsplit | split].
  - cbn [get_value]. rewrite replace_nl, (unfold_lines_fixed _ Hnl). unfold strip.
    rewrite (chars_join _ Hwf), (lstrip_fixed _ Hhead), (rstrip_fixed _ Hlast). reflexivity.
  - intros d Hd. cbn [get_value]. rewrite Hd. reflexivity.
Qed.

(** ** The precipitation cell *)

(** X9.  The precipitation cell of an enriched period is the probability
    the provider sent, rounded only when it came under the key [value] of
    an object: an int is kept, a float is rounded to an int, null stays
    null.  A probability sent as a plain number is stored as it is, and a
    period without one has a null cell. *)
Theorem precipitation_probability (d : gmap string pyval) (period' : pyval) (label : string)
    (real_feel : pyval) :
  enrich (VDict d) = Ok (period', label, real_feel) →
  ∃ stored,
    py_get period' "precipitationProbability" = Ok stored
    ∧ (d !! "probabilityOfPrecipitation" = None → stored = VNone)
    ∧ (∀ o z, d !! "probabilityOfPrecipitation" = Some (VDict o) →
         o !! "value" = Some (VInt z) → stored = VInt z)
    ∧ (∀ o f, d !! "probabilityOfPrecipitation" = Some (VDict o) →
         o !! "value" = Some (VFloat f) → ∃ z, round_float f = Ok z ∧ stored = VInt z)
    ∧ (∀ o, d !! "probabilityOfPrecipitation" = Some (VDict o) →
         o !! "value" = Some VNone → stored = VNone)
    ∧ (∀ n, d !! "probabilityOfPrecipitation" = Some (of_num n) → stored = of_num n).
Proof.
  intros Hp.
  destruct (enrich_inv _ _ _ _ Hp)
    as (d' & m & shown & pr & st & [= <-] & _ & _ & _ & Hpr & -> & _ & _).
  exists pr. split; [cbn [py_get]; rewrite lookup_insert_eq; reflexivity |].
  split; [| split; [| split; [| split]]].
  - intros Hd. rewrite Hd in Hpr. cbn in Hpr. congruence.
  - intros o z Hd Ho. rewrite Hd in Hpr. cbn in Hpr. rewrite Ho in Hpr. cbn in Hpr. congruence.
  - intros o f Hd Ho. rewrite Hd in Hpr. cbn in Hpr. rewrite Ho in Hpr. cbn in Hpr.
    destruct (round_float f) as [z|]; [| discriminate]. cbn in Hpr. exists z. split; congruence.
  - intros o Hd Ho. rewrite Hd in Hpr. cbn in Hpr. rewrite Ho in Hpr. cbn in Hpr. congruence.
  - intros n Hd. rewrite Hd in Hpr. destruct n; cbn in *; congruence.
Qed.

(** ** The time labels *)

Lemma label_exact_day : holds_from label_exact 0 24 = true.
Proof. vm_compute. reflexivity. Qed.

(** X10.  For an hour of the day, the label is the hour on the 12-hour
    clock without a leading zero, a space and AM or PM; it is preceded by
    the date as month/day and a line break exactly on the first row and at
    midnight.  A start time that is not text raises [TypeError]. *)
Theorem format_time_label (s : string) (dt : datetime) (is_first_row : bool) :
  fromisoformat s = Ok dt → 0 ≤ dt_hour dt < 24 →
  format_time (VStr s) is_first_row
  = Ok (if is_first_row || (dt_hour dt =? 0)
        then (pad2 (dt_month dt) +:+ "/" +:+ pad2 (dt_day dt)) +:+ "<br>"
             +:+ clock12 (dt_hour dt)
        else clock12 (dt_hour dt))
  ∧ ∀ v, (∀ t, v ≠ VStr t) → format_time v is_first_row = Raise TypeError.
Proof.
  intros Hdt Hh. split.
  - unfold format_time. rewrite Hdt. cbn [mbind result_bind].
    assert (lstrip_char "0" (strftime_I_p dt) = clock12 (dt_hour dt)) as ->.
    { assert (label_exact (dt_hour dt) = true) as Hex
        by (apply (holds_from_spec _ _ _ _ label_exact_day); lia).
      unfold label_exact in Hex. apply String.eqb_eq in Hex. exact Hex. }
    reflexivity.
  - intros v Hv. destruct v; try reflexivity. exfalso. eapply Hv; reflexivity.
Qed.

(** ** The dewpoint in Fahrenheit *)

Lemma dewpoint_exact_range : holds_from dewpoint_exact (-1000) (Z.to_nat 2001) = true.
Proof. vm_compute. reflexivity. Qed.

(** X11.  Line 90 takes a dewpoint of [c] degrees Celsius, an int between
    -1000 and 1000, to the integer nearest to [9 c / 5 + 32]: the float
    division and addition lose nothing that the rounding keeps.  No
    dewpoint gives none, and a dewpoint given as text raises
    [TypeError]. *)
Theorem dewpoint_conversion (c : Z) :
  -1000 ≤ c ≤ 1000 →
  (∃ f, dewpoint_f_of (VInt c) = Ok (VInt f) ∧ -2 ≤ 5 * f - (9 * c + 160) ≤ 2)
  ∧ dewpoint_f_of VNone = Ok VNone
  ∧ ∀ s, dewpoint_f_of (VStr s) = Raise TypeError.
Proof.
  intros Hc. split; [| split; reflexivity].
  assert (dewpoint_exact c = true) as Hex
    by (apply (holds_from_spec _ _ _ _ dewpoint_exact_range); lia).
  unfold dewpoint_exact in Hex.
  destruct (dewpoint_f_of (VInt c)) as [[| | f | | | |]|]; try discriminate.
  exists f. split; [reflexivity | lia].
Qed.

(** ** The forecast that reaches the loop *)

(** X12.  Whatever the provider replies, [get_hourly_forecast] returns a
    list of at most 24 items or, when the provider sent text for the
    periods, a text of at most 24 characters: the loop of line 83 always
    has something to iterate over, and makes at most 24 turns. *)
Theorem forecast_at_most_24 (w : world) :
  ((∃ l, get_hourly_forecast w = VList l ∧ (length l ≤ 24)%nat)
   ∨ (∃ s, get_hourly_forecast w = VStr s ∧ (length (chars s) ≤ 24)%nat))
  ∧ ∃ periods, py_iter (get_hourly_forecast w) = Ok periods ∧ (length periods ≤ 24)%nat.
Proof.
  unfold get_hourly_forecast, fetch_periods.
  destruct (provider_periods w) as [[| b | z | f | s | l | d]|];
    cbn [mbind result_bind py_slice py_iter];
    try (split; [left; exists []; split; [reflexivity | cbn; lia]
                | exists []; split; [reflexivity | cbn; lia]]).
  - assert (length (chars (join (take 24 (chars s)))) ≤ 24)%nat as Hs
      by (rewrite chars_join by apply wf_take, wf_chars; rewrite length_take; lia).
    split; [right; eauto |].
    eexists. split; [reflexivity |]. rewrite length_fmap. exact Hs.
  - assert (length (take 24 l) ≤ 24)%nat as Hl by (rewrite length_take; lia).
    split; [left; eauto | eauto].
Qed.

(** X13.  The forecast is empty when the lookup of the coordinate fails
    (no connection, a status from 400 to 599, a body that is not JSON),
    whatever the forecast endpoint would reply; when the lookup's reply
    lacks one of the three grid values; and when the lookup succeeds and
    the forecast request fails in one of the three ways. *)
Theorem fetch_failures (w : world) :
  (reply_fails (points w) = true → get_hourly_forecast w = VList [])
  ∧ (∀ status body props,
       points w = Response status (Some (VDict body)) →
       body !! "properties" = Some (VDict props) →
       props !! "gridId" = None ∨ props !! "gridX" = None ∨ props !! "gridY" = None →
       get_hourly_forecast w = VList [])
  ∧ (∀ status body props office grid_x grid_y,
       points w = Response status (Some (VDict body)) →
       body !! "properties" = Some (VDict props) →
       props !! "gridId" = Some office → props !! "gridX" = Some grid_x →
       props !! "gridY" = Some grid_y →
       reply_fails (gridpoint w office grid_x grid_y) = true →
       get_hourly_forecast w = VList []).
Proof.
  unfold get_hourly_forecast, fetch_periods, provider_periods. split; [| split].
  - destruct (points w) as [e | status [body|]]; cbn; [reflexivity | |].
    + rewrite orb_false_r. unfold raise_for_status. cbn. intros ->. reflexivity.
    + unfold raise_for_status, json. cbn. destruct (_ && _); reflexivity.
  - intros status body props -> Hprops Hmissing. cbn.
    unfold raise_for_status, json. cbn. destruct (_ && _); [reflexivity |]. cbn.
    rewrite Hprops. cbn.
    destruct Hmissing as [-> | [-> | ->]]; cbn; [reflexivity | |].
    + destruct (props !! "gridId"); reflexivity.
    + destruct (props !! "gridId"); [| reflexivity]. cbn.
      destruct (props !! "gridX"); reflexivity.
  - intros status body props office grid_x grid_y -> Hprops Ho Hx Hy Hfails.
    unfold raise_for_status, json. cbn.
    destruct ((400 <=? status) && (status <? 600)); [reflexivity |]. cbn.
    rewrite Hprops. cbn. rewrite Ho, Hx, Hy. cbn.
    destruct (gridpoint w office grid_x grid_y) as [e | status' [body'|]]; cbn; [reflexivity | |].
    + cbn in Hfails. rewrite orb_false_r in Hfails. rewrite Hfails. reflexivity.
    + destruct (_ && _); reflexivity.
Qed.

(** ** The theme *)

(** X14.  A rendered page is light exactly when the hour the clock read is
    from 6 to 18, and dark exactly when it is before 6 or from 19 on. *)
Theorem theme_by_hour (w : world) (pg : page) :
  home w = Rendered pg →
  ∃ h, clock w = Ok h
       ∧ (theme pg = "light" ↔ 6 ≤ h < 19)
       ∧ (theme pg = "dark" ↔ h < 6 ∨ 19 ≤ h).
Proof.
  intros Hhome.
  destruct (home_rendered_inv _ _ Hhome) as (h & _ & _ & Hclock & _ & _ & Htheme & _).
  exists h. split; [exact Hclock |]. rewrite Htheme. unfold theme_of.
  destruct (Z.leb_spec 19 h), (Z.ltb_spec h 6); cbn; split; split;
    (discriminate || lia || reflexivity || auto).
Qed.

(** ** What the loop body leaves of a period *)

Lemma wind_speed_display_text_result (wind_speed r : pyval) :
  wind_speed_display wind_speed = Ok r → ∃ text, r = VStr text.
Proof.
  unfold wind_speed_display. destruct (truthy wind_speed).
  - destruct wind_speed; try discriminate. intros [= <-]. eauto.
  - intros [= <-]. eauto.
Qed.

(** X15.  The loop body assigns six keys of the period and leaves every
    other item as the provider sent it.  After it the cells of the real
    feel, the wind chill, the heat index, the dewpoint and the wind speed
    hold text, and the precipitation cell is present. *)
Theorem enrich_frame (d : gmap string pyval) (period' : pyval) (label : string)
    (real_feel : pyval) :
  enrich (VDict d) = Ok (period', label, real_feel) →
  ∃ d', period' = VDict d'
        ∧ (∀ k, k ∉ assigned_keys → d' !! k = d !! k)
        ∧ (∀ k, k ∈ ["realFeel"; "windChill"; "heatIndex"; "dewpoint"; "windSpeed"] →
             ∃ text, d' !! k = Some (VStr text))
        ∧ is_Some (d' !! "precipitationProbability").
Proof.
  intros Hp.
  destruct (enrich_inv _ _ _ _ Hp)
    as (d0 & m & shown & pr & st & [= <-] & _ & _ & Hshown & _ & -> & _ & _).
  destruct (wind_speed_display_text_result _ _ Hshown) as [text ->].
  eexists. split; [reflexivity | split; [| split]].
  - intros k Hk. unfold assigned_keys in Hk. rewrite !not_elem_of_cons in Hk.
    destruct Hk as (? & ? & ? & ? & ? & ? & _).
    rewrite !lookup_insert_ne by congruence. reflexivity.
  - intros k Hk. rewrite !elem_of_cons in Hk.
    destruct Hk as [-> | [-> | [-> | [-> | [-> | Hk]]]]];
      [.. | apply elem_of_nil in Hk; contradiction];
      rewrite ?lookup_insert_ne by discriminate; rewrite lookup_insert_eq; eauto.
  - rewrite lookup_insert_eq. eauto.
Qed.

(** ** The time cells of the table *)

Lemma render_rows_inv (first : bool) (periods : list pyval) (rows : list (string * pyval)) :
  render_rows first periods = Ok rows →
  rows.*2 = periods
  ∧ ∀ i row, rows !! i = Some row →
      ∃ start_time, jinja_attr row.2 "startTime" = Some start_time
                    ∧ format_time start_time (first && bool_decide (i = 0%nat)) = Ok row.1.
Proof.
  revert first rows. induction periods as [|p periods IH]; intros first rows; cbn.
  - intros [= <-]. split; [reflexivity |]. intros i row Hrow. destruct i; discriminate.
  - destruct (jinja_attr p "startTime") as [st|] eqn:Hst; [| discriminate].
    intros H. bind_inv H. injection H as <-.
    destruct (IH _ _ E0) as [Hps Hcells]. split; [cbn; rewrite Hps; reflexivity |].
    intros [|i] row Hrow.
    + injection Hrow as <-. exists st. cbn [fst snd]. rewrite andb_true_r. auto.
    + destruct (Hcells i row Hrow) as (st' & Hst' & Hcell). exists st'.
      split; [exact Hst' |]. cbn [andb] in Hcell.
      rewrite bool_decide_eq_false_2 by discriminate. rewrite andb_false_r. exact Hcell.
Qed.

Lemma home_rendered_rows (w : world) (pg : page) :
  home w = Rendered pg →
  ∃ periods rs,
    py_iter (get_hourly_forecast w) = Ok periods
    ∧ Forall2 (λ p r, enrich p = Ok r) periods rs
    ∧ chart_labels pg = rs.*1.*2
    ∧ render_rows true rs.*1.*1 = Ok (table_rows pg).
Proof.
  unfold home, enrichment. destruct (clock w) as [h|]; [| discriminate].
  cbv zeta. cbn [mbind result_bind].
  destruct (py_iter (get_hourly_forecast w)) as [periods|] eqn:Hiter; [| discriminate].
  cbn [mbind result_bind].
  destruct (enrich_each periods [] []) as [[[ps' ls] vs]|] eqn:Hloop; [| discriminate].
  destruct (enrich_each_inv _ _ _ _ _ _ Hloop) as (rs & Hrs & -> & -> & ->).
  destruct (render_rows true rs.*1.*1) as [rows|] eqn:Hrows; [| discriminate].
  intros [= <-]. exists periods, rs. cbn. auto.
Qed.

(** X16.  On a rendered page the time cell of row [i] and the chart label
    [i] are formatted from the same start time.  From the second row on the
    cell is the label; the cell of the first row is formatted as a first
    row, with its date. *)
Theorem time_cells (w : world) (pg : page) (i : nat) (row : string * pyval) :
  home w = Rendered pg → table_rows pg !! i = Some row →
  ∃ start_time label,
    jinja_attr row.2 "startTime" = Some start_time
    ∧ chart_labels pg !! i = Some label
    ∧ format_time start_time false = Ok label
    ∧ format_time start_time (bool_decide (i = 0%nat)) = Ok row.1
    ∧ (i ≠ 0%nat → row.1 = label).
Proof.
  intros Hhome Hrow.
  destruct (home_rendered_rows _ _ Hhome) as (periods & rs & _ & Hrs & Hls & Hrows).
  destruct (render_rows_inv _ _ _ Hrows) as [Hps Hcells].
  destruct (Hcells i row Hrow) as (st & Hst & Hcell). cbn [andb] in Hcell.
  assert ((table_rows pg).*2 !! i = Some row.2) as Hi
    by (rewrite list_lookup_fmap, Hrow; reflexivity).
  rewrite Hps, !list_lookup_fmap in Hi.
  destruct (rs !! i) as [[[p' l] v]|] eqn:Hr; [| discriminate].
  cbn in Hi. injection Hi as Hp'.
  destruct (Forall2_lookup_r _ _ _ _ _ Hrs Hr) as (p & _ & Hp).
  destruct (enrich_chart_entry _ _ _ _ Hp) as (_ & (st' & Hst' & Hlabel) & _).
  rewrite Hp', Hst in Hst'. injection Hst' as <-.
  exists st, l. rewrite Hls, !list_lookup_fmap, Hr. cbn.
  repeat split; auto.
  intros Hne. rewrite bool_decide_eq_false_2 in Hcell by exact Hne. congruence.
Qed.

(** ** What a rendered page says of the forecast *)

(** X17.  A page is rendered only when every period of the forecast is an
    object with a start time that is text and that [fromisoformat] reads,
    and on which lines 84 to 102 raise nothing; the table has one row for
    each. *)
Theorem rendered_periods_well_formed (w : world) (pg : page) :
  home w = Rendered pg →
  ∃ periods,
    py_iter (get_hourly_forecast w) = Ok periods
    ∧ length (table_rows pg) = length periods
    ∧ Forall (λ period, ∃ d s dt m,
                period = VDict d ∧ d !! "startTime" = Some (VStr s)
                ∧ fromisoformat s = Ok dt ∧ derive period = Ok m) periods.
Proof.
  intros Hhome.
  destruct (home_rendered_rows _ _ Hhome) as (periods & rs & Hiter & Hrs & _ & Hrows).
  destruct (render_rows_inv _ _ _ Hrows) as [Hps _].
  exists periods. split; [exact Hiter | split].
  - rewrite <- (length_fmap snd), Hps, !length_fmap. symmetry. exact (Forall2_length _ _ _ Hrs).
  - clear -Hrs. induction Hrs as [|p r periods rs Hp _ IH]; constructor; [| exact IH].
    destruct r as [[p' l] v].
    destruct (enrich_inv _ _ _ _ Hp) as (d & m & shown & pr & st & -> & Hm & _ & _ & _ & _ & Hst & Hl).
    unfold format_time in Hl. destruct st as [| | | | s | |]; try discriminate.
    destruct (fromisoformat s) as [dt|] eqn:Hdt; [| discriminate].
    exists d, s, dt, m. auto.
Qed.

(** ** The blend of two present values *)

(** X18.  When wind chill and heat index are both present (and at most
    5000 in absolute value) the real feel lies between the two, within a
    half of their mean, and does not depend on which is which. *)
Theorem real_feel_between (temp_f : pyval) (wind_chill heat_index : Z) :
  Z.abs wind_chill ≤ 5000 → Z.abs heat_index ≤ 5000 →
  ∃ z, real_feel_of temp_f (VInt wind_chill) (VInt heat_index) = Ok (VInt z)
       ∧ Z.min wind_chill heat_index ≤ z ≤ Z.max wind_chill heat_index
       ∧ -1 ≤ 2 * z - (wind_chill + heat_index) ≤ 1
       ∧ real_feel_of temp_f (VInt heat_index) (VInt wind_chill) = Ok (VInt z).
Proof.
  intros Ha Hb. exists (average_rounded wind_chill heat_index).
  split; [apply real_feel_average; assumption |].
  assert (average_rounded heat_index wind_chill = average_rounded wind_chill heat_index) as Hsym
    by (unfold average_rounded; rewrite (Z.add_comm heat_index wind_chill); reflexivity).
  split; [| split; [| rewrite <- Hsym; apply real_feel_average; assumption]].
  - unfold average_rounded.
    pose proof (Zmod_even (wind_chill + heat_index)) as Hmod.
    pose proof (Z.div_mod (wind_chill + heat_index) 2 ltac:(lia)) as Hdiv.
    destruct (Z.even (wind_chill + heat_index)); [lia |].
    destruct (Z.even ((wind_chill + heat_index) / 2)); lia.
  - unfold average_rounded.
    pose proof (Zmod_even (wind_chill + heat_index)) as Hmod.
    pose proof (Z.div_mod (wind_chill + heat_index) 2 ltac:(lia)) as Hdiv.
    destruct (Z.even (wind_chill + heat_index)); [lia |].
    destruct (Z.even ((wind_chill + heat_index) / 2)); lia.
Qed.


(** ** When the loop body succeeds *)

Lemma derive_wind_speed_shown (period : pyval) (m : metrics) :
  derive period = Ok m → ∃ text, wind_speed_display (m_wind_speed m) = Ok (VStr text).
Proof.
  unfold derive. intros H. bind_inv H. injection H as <-. cbn [m_wind_speed].
  unfold wind_speed_mph_of in E5. unfold wind_speed_display.
  destruct (truthy a4); [| eauto].
  destruct a4; try discriminate. cbn. eauto.
Qed.

(** X19.  The loop body raises nothing on a period on which lines 84 to
    102 raise nothing, whose precipitation probability [get_value] can
    round, and whose start time is text that [fromisoformat] reads: line
    109 cannot raise once line 87 has not.  The chart then gets the real
    feel of lines 95 to 102 and the label of the start time. *)
Theorem enrich_succeeds (d : gmap string pyval) (m : metrics) (precipitation : pyval)
    (s : string) (dt : datetime) :
  derive (VDict d) = Ok m →
  get_value (default VNone (d !! "probabilityOfPrecipitation")) true = Ok precipitation →
  d !! "startTime" = Some (VStr s) →
  fromisoformat s = Ok dt →
  ∃ period' label,
    enrich (VDict d) = Ok (period', label, m_real_feel m)
    ∧ format_time (VStr s) false = Ok label.
Proof.
  intros Hm Hpr Hst Hdt.
  destruct (derive_wind_speed_shown _ _ Hm) as [text Hshown].
  unfold enrich. rewrite Hm. cbn [mbind result_bind py_setitem]. rewrite Hshown.
  cbn [mbind result_bind py_setitem py_get]. rewrite !lookup_insert_ne by discriminate.
  rewrite Hpr. cbn [mbind result_bind py_setitem py_getitem].
  rewrite !lookup_insert_ne by discriminate. rewrite Hst. cbn [mbind result_bind].
  destruct (format_time (VStr s) false) as [label|] eqn:Hl.
  - cbn [mbind result_bind]. eexists _, label. split; reflexivity.
  - unfold format_time in Hl. rewrite Hdt in Hl. discriminate Hl.
Qed.

(** ** The error text *)

(** X20.  [home] returns the error text of line 64 exactly when the time
    zone or the clock raises: a failure of the fetch never reaches it,
    being caught in [get_hourly_forecast], and a failure of the loop is
    not caught at all. *)
Theorem error_text_only_from_clock (w : world) (e : exn) :
  home w = ErrorText e ↔ clock w = Raise e.
Proof.
  split; [| apply home_clock_raises].
  unfold home. destruct (clock w) as [h|e']; cbv zeta; cbn [mbind result_bind].
  - destruct (enrichment (get_hourly_forecast w)) as [[[ps ls] vs]|]; [| discriminate].
    destruct (render_rows true ps); discriminate.
  - intros [= <-]. reflexivity.
Qed.
End Properties.

(** * Examples *)

Example heat_index_90_50_witness :
  calculate_heat_index sample_pow (VInt 90) (VInt 50) = Ok (VInt 87).
Proof. apply (heat_index_90_50 sample_pow). vm_compute. reflexivity. Defined.

Example wind_chill_correct_witness :
  calculate_wind_chill sample_pow (VInt 0) (VInt 3) = Ok (VInt (-7))
  ∧ calculate_wind_chill sample_pow (VInt 0) (VInt 5) = Ok (VInt (-11)).
Proof.
  split.
  - destruct (wind_chill_correct sample_pow (Some (NInt 0)) (Some 3)) as (_ & _ & Hat).
    rewrite (Hat 1.1921733264724519%float); vm_compute; reflexivity.
  - destruct (wind_chill_correct sample_pow (Some (NInt 0)) (Some 5)) as (_ & Hformula & _).
    refine (eq_trans (Hformula (NInt 0) 5 eq_refl eq_refl _) _); [lia |].
    vm_compute. reflexivity.
Defined.

Example real_feel_blend_witness :
  real_feel_of (VInt 72) (VInt 30) VNone = Ok (VInt 30)
  ∧ real_feel_of (VInt 72) VNone VNone = Ok (VInt 72)
  ∧ real_feel_of (VInt 72) (VInt 20) (VInt 100) = Ok (VInt 60)
  ∧ real_feel_of (VInt 72) (VInt 2) (VInt 3) = Ok (VInt 2).
Proof.
  destruct (real_feel_blend (VInt 72)) as (_ & Havg & H60 & Hwc & _ & Hraw).
  split; [apply Hwc | split; [apply Hraw | split; [apply H60 |]]].
  rewrite Havg by (vm_compute; discriminate). reflexivity.
Defined.

Example heat_index_correct_witness :
  calculate_heat_index sample_pow (VInt 72) (VInt 50) = Ok (VInt 70)
  ∧ calculate_heat_index sample_pow (VInt 72) VNone = Ok VNone.
Proof.
  split.
  - destruct (heat_index_correct sample_pow (Some (NInt 72)) (Some (NInt 50))) as [_ Hformula].
    refine (eq_trans (Hformula (NInt 72) (NInt 50) eq_refl eq_refl) _).
    vm_compute. reflexivity.
  - apply (heat_index_correct sample_pow (Some (NInt 72)) None). right. reflexivity.
Defined.

(** C2: the lookup fails on the network, the lookup answers 503, and the
    forecast reply has no [properties]. *)
Example fetch_failure_renders_empty_witness :
  let empty := Rendered {| theme := "light"; chart_labels := [];
                           chart_real_feel := []; table_rows := [] |} in
  sample_home {| points := Failed ConnectionError;
                 gridpoint := λ _ _ _, forecast_reply [];
                 clock := Ok 12 |} = empty
  ∧ sample_home {| points := Response 503 None;
                   gridpoint := λ _ _ _, forecast_reply [];
                   clock := Ok 12 |} = empty
  ∧ sample_home {| points := grid_reply;
                   gridpoint := λ _ _ _, Response 200 (Some (dict [("title", VStr "Not Found")]));
                   clock := Ok 12 |} = empty.
Proof.
  cbv zeta. split; [| split].
  - apply (fetch_failure_renders_empty _ _ _ _ _ _ ConnectionError 12); vm_compute; reflexivity.
  - apply (fetch_failure_renders_empty _ _ _ _ _ _ HTTPError 12); vm_compute; reflexivity.
  - apply (fetch_failure_renders_empty _ _ _ _ _ _ KeyError 12); vm_compute; reflexivity.
Defined.

(** C6: of 40 periods, 24 are kept and rendered. *)
Example keeps_first_24_witness :
  ∃ pg,
    sample_home (sample_world (replicate 40 (sample_period (VInt 72) (VStr "10 mph"))) (Ok 12))
    = Rendered pg
    ∧ length (table_rows pg) = 24%nat
    ∧ length (chart_labels pg) = 24%nat
    ∧ length (chart_real_feel pg) = 24%nat.
Proof.
  set (p := sample_period (VInt 72) (VStr "10 mph")).
  destruct (keeps_first_24 sample_pow sample_fromisoformat sample_repr sample_isdigit sample_int
              (sample_world (replicate 40 p) (Ok 12)) (replicate 40 p))
    as (_ & _ & _ & Hhome); [reflexivity |].
  destruct (sample_enrich p) as [r|e] eqn:Hp; [| vm_compute in Hp; discriminate Hp].
  destruct (Hhome 12 (replicate 24 r) eq_refl) as (pg & Hpg & _ & _ & _ & Hrows & Hls & Hvs).
  { change (take 24 (replicate 40 p)) with (replicate 24 p).
    repeat constructor; exact Hp. }
  exists pg. auto.
Defined.

(** C7: a period without a temperature. *)
Example display_strings_witness :
  cell "realFeel" (sample_enrich (sample_period VNone (VStr "10 mph"))) = Ok (VStr "None°F").
Proof.
  destruct (sample_enrich (sample_period VNone (VStr "10 mph")))
    as [[[period' label] real_feel]|e] eqn:Hp; [| vm_compute in Hp; discriminate Hp].
  destruct (display_strings _ _ _ _ _ _ _ _ _ Hp) as (_ & _ & Hnone).
  apply Hnone. vm_compute in Hp. injection Hp as _ _ <-. reflexivity.
Defined.

(** The other three cells of that period, and the four cells of a period
    at 20 degrees in a 10 mph wind. *)
Example display_strings_cells :
  let null := sample_enrich (sample_period VNone (VStr "10 mph")) in
  let cold := sample_enrich (sample_period (VInt 20) (VStr "10 mph")) in
  cell "windChill" null = Ok (VStr "") ∧ cell "heatIndex" null = Ok (VStr "")
  ∧ cell "dewpoint" null = Ok (VStr "51°F")
  ∧ cell "windChill" cold = Ok (VStr "9°F") ∧ cell "heatIndex" cold = Ok (VStr "-1°F")
  ∧ cell "realFeel" cold = Ok (VStr "4°F") ∧ cell "dewpoint" cold = Ok (VStr "51°F").
Proof. vm_compute. repeat split; reflexivity. Qed.

(** C8: a rendered page with one period, and with a period without a
    temperature, whose chart value is null. *)
Example chart_series_parallel_witness :
  ∃ pg,
    sample_home (sample_world [sample_period (VInt 72) (VStr "10 mph")] (Ok 12)) = Rendered pg
    ∧ length (chart_labels pg) = length (table_rows pg)
    ∧ length (chart_real_feel pg) = length (table_rows pg).
Proof.
  destruct (sample_home (sample_world [sample_period (VInt 72) (VStr "10 mph")] (Ok 12)))
    as [pg | e | e] eqn:Hhome; [| vm_compute in Hhome; discriminate Hhome ..].
  destruct (chart_series_parallel _ _ _ _ _ _ _ Hhome) as (periods & _ & Hls & Hvs & Hrows & _).
  exists pg. rewrite Hls, Hvs, Hrows. auto.
Defined.

Example chart_value_null :
  ∃ pg,
    sample_home (sample_world [sample_period VNone (VStr "10 mph")] (Ok 12)) = Rendered pg
    ∧ chart_labels pg = ["2 PM"]
    ∧ chart_real_feel pg = [VNone].
Proof. eexists. split; [vm_compute; reflexivity | split; reflexivity]. Qed.



(** C10: the clock raises; the request succeeds; a period without a start
    time, and one whose start time is no timestamp. *)
Example home_outcomes_witness :
  sample_home (sample_world [sample_period (VInt 72) (VStr "10 mph")]
                 (Raise UnknownTimeZoneError))
  = ErrorText UnknownTimeZoneError
  ∧ ∃ pg, sample_home (sample_world [sample_period (VInt 72) (VStr "10 mph")] (Ok 20))
          = Rendered pg.
Proof.
  split.
  - apply (home_outcomes sample_pow sample_fromisoformat sample_repr sample_isdigit sample_int). reflexivity.
  - destruct (home_outcomes sample_pow sample_fromisoformat sample_repr sample_isdigit sample_int
                (sample_world [sample_period (VInt 72) (VStr "10 mph")] (Ok 20)))
      as (_ & Hok & _).
    destruct (enrichment sample_pow sample_fromisoformat sample_repr sample_isdigit sample_int
                (get_hourly_forecast
                   (sample_world [sample_period (VInt 72) (VStr "10 mph")] (Ok 20))))
      as [r|e] eqn:Hloop; [| vm_compute in Hloop; discriminate Hloop].
    exact (Hok 20 r eq_refl eq_refl).
Defined.

Example home_exception_escapes :
  sample_home (sample_world [dict [("temperature", VInt 72); ("windSpeed", VStr "10 mph")]]
                 (Ok 12))
  = Escapes KeyError
  ∧ sample_home (sample_world [dict [("startTime", VStr "tomorrow"); ("temperature", VInt 72)]]
                   (Ok 12))
    = Escapes ValueError
  ∧ status_code (Escapes KeyError) = 500.
Proof. vm_compute. repeat split; reflexivity. Qed.

(** ** More examples *)

(** A period without a temperature in a 10 mph wind. *)
Example no_temperature_witness :
  ∃ m, derive sample_pow sample_isdigit sample_int (sample_period VNone (VStr "10 mph"))
       = Ok m
       ∧ m_temp_f m = VNone ∧ m_wind_chill m = VNone ∧ m_heat_index m = VNone
       ∧ m_real_feel m = VNone.
Proof.
  unfold sample_period, dict.
  destruct (derive sample_pow sample_isdigit sample_int (VDict _)) as [m|e] eqn:Hm;
    [| vm_compute in Hm; discriminate Hm].
  exists m. split; [reflexivity |].
  apply (no_temperature sample_pow sample_isdigit sample_int _ m Hm).
  right. vm_compute. reflexivity.
Defined.

(** 72 degrees in a 2 mph wind: no wind chill, and the real feel is the
    heat index. *)
Example calm_wind_witness :
  ∃ m, derive sample_pow sample_isdigit sample_int (sample_period (VInt 72) (VStr "2 mph"))
       = Ok m
       ∧ m_wind_chill m = VNone
       ∧ m_real_feel m = (if is_none (m_heat_index m) then m_temp_f m else m_heat_index m).
Proof.
  unfold sample_period, dict.
  destruct (derive sample_pow sample_isdigit sample_int (VDict _)) as [m|e] eqn:Hm;
    [| vm_compute in Hm; discriminate Hm].
  exists m. split; [reflexivity |].
  apply (calm_wind sample_pow sample_isdigit sample_int _ m "2 mph" Hm);
    [vm_compute; reflexivity |].
  right. exists 2. split; [vm_compute; reflexivity | lia].
Defined.

(** A period without a start time between two good ones. *)
Example first_failure_escapes_witness :
  sample_home
    (sample_world [sample_period (VInt 72) (VStr "10 mph");
                   dict [("temperature", VInt 72)];
                   sample_period (VInt 72) (VStr "10 mph")] (Ok 12))
  = Escapes KeyError.
Proof.
  set (good := sample_period (VInt 72) (VStr "10 mph")).
  set (bad := dict [("temperature", VInt 72)]).
  destruct (sample_enrich good) as [r|e] eqn:Hr; [| vm_compute in Hr; discriminate Hr].
  destruct (first_failure_escapes sample_pow sample_fromisoformat sample_repr
              sample_isdigit sample_int [good] [good] bad KeyError [r]) as (_ & Hhome & _).
  - constructor; [exact Hr | constructor].
  - vm_compute. reflexivity.
  - apply (Hhome _ 12); reflexivity.
Defined.

(** The sample period has a probability of 20 under [value]. *)
Example precipitation_probability_witness :
  cell "precipitationProbability" (sample_enrich (sample_period (VInt 72) (VStr "10 mph")))
  = Ok (VInt 20).
Proof.
  unfold sample_period, dict, sample_enrich.
  destruct (enrich _ _ _ _ _ (VDict _)) as [[[period' label] real_feel]|e] eqn:Hp;
    [| vm_compute in Hp; discriminate Hp].
  destruct (precipitation_probability _ _ _ _ _ _ _ _ _ Hp) as (stored & Hget & _ & Hint & _).
  cbn [cell mbind result_bind fst]. rewrite Hget. f_equal.
  apply (Hint (list_to_map [("unitCode", VStr "wmoUnit:percent"); ("value", VInt 20)]) 20);
    vm_compute; reflexivity.
Defined.

(** Two in the afternoon, and midnight. *)
Example format_time_label_witness :
  format_time sample_fromisoformat (VStr "2024-01-05T14:00:00-05:00") false = Ok "2 PM"
  ∧ format_time sample_fromisoformat (VStr "2024-01-05T14:00:00-05:00") true
    = Ok "01/05<br>2 PM"
  ∧ format_time sample_fromisoformat (VStr "2024-01-06T00:00:00-05:00") false
    = Ok "01/06<br>12 AM"
  ∧ format_time sample_fromisoformat (VInt 14) false = Raise TypeError.
Proof.
  assert (sample_fromisoformat "2024-01-05T14:00:00-05:00"
          = Ok {| dt_month := 1; dt_day := 5; dt_hour := 14 |}) as Hpm
    by (vm_compute; reflexivity).
  assert (sample_fromisoformat "2024-01-06T00:00:00-05:00"
          = Ok {| dt_month := 1; dt_day := 6; dt_hour := 0 |}) as Ham
    by (vm_compute; reflexivity).
  split; [| split; [| split]].
  - refine (eq_trans (proj1 (format_time_label _ _ _ false Hpm _)) _); [cbn; lia |].
    vm_compute. reflexivity.
  - refine (eq_trans (proj1 (format_time_label _ _ _ true Hpm _)) _); [cbn; lia |].
    vm_compute. reflexivity.
  - refine (eq_trans (proj1 (format_time_label _ _ _ false Ham _)) _); [cbn; lia |].
    vm_compute. reflexivity.
  - apply (format_time_label _ _ _ false Hpm); [cbn; lia | discriminate].
Defined.

(** 10 degrees Celsius are 50 degrees Fahrenheit, -40 are -40, and 1 is
    33.8, shown as 34. *)
Example dewpoint_conversion_witness :
  dewpoint_f_of (VInt 10) = Ok (VInt 50)
  ∧ dewpoint_f_of (VInt (-40)) = Ok (VInt (-40))
  ∧ dewpoint_f_of (VInt 1) = Ok (VInt 34).
Proof.
  split; [| split].
  - destruct (dewpoint_conversion 10) as [(f & -> & Hf) _]; [lia |]. do 2 f_equal. lia.
  - destruct (dewpoint_conversion (-40)) as [(f & -> & Hf) _]; [lia |]. do 2 f_equal. lia.
  - destruct (dewpoint_conversion 1) as [(f & -> & Hf) _]; [lia |]. do 2 f_equal. lia.
Defined.

(** Noon is light, and 8 in the evening is dark. *)
Example theme_by_hour_witness :
  (∃ pg, sample_home (sample_world [] (Ok 12)) = Rendered pg ∧ theme pg = "light")
  ∧ (∃ pg, sample_home (sample_world [] (Ok 20)) = Rendered pg ∧ theme pg = "dark").
Proof.
  split.
  - destruct (sample_home (sample_world [] (Ok 12))) as [pg|e|e] eqn:Hhome;
      [| vm_compute in Hhome; discriminate Hhome ..].
    destruct (theme_by_hour _ _ _ _ _ _ _ Hhome) as (h & Hclock & Hlight & _).
    injection Hclock as <-. exists pg. split; [reflexivity | apply Hlight; lia].
  - destruct (sample_home (sample_world [] (Ok 20))) as [pg|e|e] eqn:Hhome;
      [| vm_compute in Hhome; discriminate Hhome ..].
    destruct (theme_by_hour _ _ _ _ _ _ _ Hhome) as (h & Hclock & _ & Hdark).
    injection Hclock as <-. exists pg. split; [reflexivity | apply Hdark; lia].
Defined.

(** The temperature of the sample period is still there after the loop
    body. *)
Example enrich_frame_witness :
  cell "temperature" (sample_enrich (sample_period (VInt 72) (VStr "10 mph"))) = Ok (VInt 72).
Proof.
  unfold sample_period, dict, sample_enrich.
  destruct (enrich _ _ _ _ _ (VDict _)) as [[[period' label] real_feel]|e] eqn:Hp;
    [| vm_compute in Hp; discriminate Hp].
  destruct (enrich_frame _ _ _ _ _ _ _ _ _ Hp) as (d' & -> & Hframe & _).
  cbn [cell mbind result_bind fst py_get]. rewrite (Hframe "temperature").
  - vm_compute. reflexivity.
  - intros Hin. unfold assigned_keys in Hin.
    repeat (apply elem_of_cons in Hin as [Hin | Hin]; [discriminate Hin |]).
    apply elem_of_nil in Hin. exact Hin.
Defined.

(** The second row of a page with two periods. *)
Example time_cells_witness :
  ∃ pg row label,
    sample_home (sample_world [sample_period (VInt 72) (VStr "10 mph");
                               sample_period (VInt 20) (VStr "10 mph")] (Ok 12))
    = Rendered pg
    ∧ table_rows pg !! 1%nat = Some row
    ∧ chart_labels pg !! 1%nat = Some label
    ∧ row.1 = label.
Proof.
  set (w := sample_world _ _).
  destruct (sample_home w) as [pg|e|e] eqn:Hhome; [| vm_compute in Hhome; discriminate Hhome ..].
  destruct (table_rows pg !! 1%nat) as [row|] eqn:Hrow.
  - destruct (time_cells _ _ _ _ _ w pg 1 row Hhome Hrow) as (st & label & _ & Hl & _ & _ & Heq).
    exists pg, row, label. repeat split; auto.
  - exfalso. vm_compute in Hhome. injection Hhome as <-. vm_compute in Hrow. discriminate Hrow.
Defined.

Example rendered_periods_well_formed_witness :
  ∃ pg periods,
    sample_home (sample_world [sample_period (VInt 72) (VStr "10 mph")] (Ok 12)) = Rendered pg
    ∧ py_iter (get_hourly_forecast
                 (sample_world [sample_period (VInt 72) (VStr "10 mph")] (Ok 12)))
      = Ok periods
    ∧ length (table_rows pg) = length periods.
Proof.
  set (w := sample_world _ _).
  destruct (sample_home w) as [pg|e|e] eqn:Hhome; [| vm_compute in Hhome; discriminate Hhome ..].
  destruct (rendered_periods_well_formed _ _ _ _ _ w pg Hhome) as (periods & Hiter & Hlen & _).
  exists pg, periods. auto.
Defined.

(** A wind chill of 20 and a heat index of 101. *)
Example real_feel_between_witness :
  ∃ z, real_feel_of (VInt 72) (VInt 20) (VInt 101) = Ok (VInt z)
       ∧ 20 ≤ z ≤ 101
       ∧ real_feel_of (VInt 72) (VInt 101) (VInt 20) = Ok (VInt z).
Proof.
  destruct (real_feel_between (VInt 72) 20 101) as (z & Hz & Hb & _ & Hsym); [lia | lia |].
  exists z. split; [exact Hz | split; [cbn in Hb; lia | exact Hsym]].
Defined.

(** The sample period meets the four conditions. *)
Example enrich_succeeds_witness :
  ∃ period' label real_feel,
    sample_enrich (sample_period (VInt 72) (VStr "10 mph")) = Ok (period', label, real_feel)
    ∧ label = "2 PM".
Proof.
  unfold sample_period, dict, sample_enrich.
  destruct (derive sample_pow sample_isdigit sample_int (VDict (list_to_map
              [("startTime", VStr "2024-01-05T14:00:00-05:00");
               ("temperature", VInt 72);
               ("windSpeed", VStr "10 mph");
               ("relativeHumidity",
                VDict (list_to_map [("unitCode", VStr "wmoUnit:percent"); ("value", VInt 50)]));
               ("dewpoint",
                VDict (list_to_map [("unitCode", VStr "wmoUnit:degC"); ("value", VFloat 10.5)]));
               ("probabilityOfPrecipitation",
                VDict (list_to_map [("unitCode", VStr "wmoUnit:percent"); ("value", VInt 20)]))])))
    as [m|e] eqn:Hm; [| vm_compute in Hm; discriminate Hm].
  destruct (enrich_succeeds sample_pow sample_fromisoformat sample_repr sample_isdigit sample_int _ m (VInt 20)
              "2024-01-05T14:00:00-05:00" {| dt_month := 1; dt_day := 5; dt_hour := 14 |} Hm)
    as (period' & label & Hp & Hl); [vm_compute; reflexivity .. |].
  exists period', label, (m_real_feel m). split; [exact Hp |].
  vm_compute in Hl. injection Hl as <-. reflexivity.
Defined.
